(** * ethatomicswap: the command-line front end, embedded and verified

    A shallow embedding of [cmd/ethatomicswap/main.go].  Go strings are
    byte strings ([string]), Go [int]s are [Z] (the only ones here are
    lengths and indices of the argument list, far from the ends of the
    64-bit range), a Go [error] is its message, and everything the program
    does to the outside world (standard output and error, the flag set,
    the RPC server) is threaded through an explicit process state.

    Three packages of the Go distribution take part in what the program
    does and are modelled next to it, as the Go sources define them:
    [net] ([SplitHostPort], [JoinHostPort]), [flag] (the parsing loop of a
    [FlagSet] made with [ExitOnError]) and [context] (timeouts only).  The
    RPC server itself is a parameter, [World]. *)

From Stdlib Require Import ZArith List String Ascii Bool Lia.
Import ListNotations.

Local Open Scope list_scope.
Local Open Scope string_scope.
Local Open Scope Z_scope.

(** ** Go values *)

(** Run-time panics the program can raise. *)
Inductive PanicValue : Type :=
| NilDereference      (* invalid memory address or nil pointer dereference *)
| SliceOutOfRange.    (* slice bounds out of range *)

(** The result of a pure Go function that may panic. *)
Inductive Val (A : Type) : Type :=
| Returns (a : A)
| Panics (p : PanicValue).
Arguments Returns {A} a.
Arguments Panics {A} p.

(** A Go [error] value is represented by the text of its [Error()]. *)
Definition error : Type := string.

(** [len(l)] as a Go [int]. *)
Definition len {A : Type} (l : list A) : Z := Z.of_nat (List.length l).

(** [l[:hi]]: panics unless [0 <= hi <= len(l)]. *)
Definition sliceTo {A : Type} (l : list A) (hi : Z) : Val (list A) :=
  if (0 <=? hi) && (hi <=? len l) then Returns (firstn (Z.to_nat hi) l)
  else Panics SliceOutOfRange.

(** [l[lo:]]: panics unless [0 <= lo <= len(l)]. *)
Definition sliceFrom {A : Type} (l : list A) (lo : Z) : Val (list A) :=
  if (0 <=? lo) && (lo <=? len l) then Returns (skipn (Z.to_nat lo) l)
  else Panics SliceOutOfRange.

(** ** Byte-string helpers ([strings], [internal/bytealg]) *)

(** [bytealg.IndexByteString]: position of the first [c] in [s]. *)
Fixpoint indexByte (c : ascii) (s : string) : option nat :=
  match s with
  | EmptyString => None
  | String a s' =>
      if Ascii.eqb a c then Some O
      else option_map S (indexByte c s')
  end.

(** [bytealg.LastIndexByteString]: position of the last [c] in [s]. *)
Fixpoint lastIndexByte (c : ascii) (s : string) : option nat :=
  match s with
  | EmptyString => None
  | String a s' =>
      match lastIndexByte c s' with
      | Some i => Some (S i)
      | None => if Ascii.eqb a c then Some O else None
      end
  end.

Definition containsByte (c : ascii) (s : string) : bool :=
  match indexByte c s with Some _ => true | None => false end.

(** [s[lo:]] for [lo <= len(s)]. *)
Definition strFrom (lo : nat) (s : string) : string :=
  substring lo (String.length s - lo) s.

(** [s[i] == c], for [i < len(s)]. *)
Definition byteIs (i : nat) (s : string) (c : ascii) : bool :=
  match String.get i s with
  | Some a => Ascii.eqb a c
  | None => false
  end.

(** [strings.HasPrefix(s, p)]. *)
Definition HasPrefix (s p : string) : bool := prefix p s.

(** ** The constants of the program *)

Definition verify : bool := true.

Definition secretSize : Z := 32.

Record Block : Type := mkBlock { Number : string; Hash : string }.

(** ** [checkCmdArgLength] *)

(** The test of the loop body: [len(arg) != 1 && strings.HasPrefix(arg, "-")]. *)
Definition looksLikeFlag (arg : string) : bool :=
  negb (Nat.eqb (String.length arg) 1) && HasPrefix arg "-".

(** The [for i, arg := range ...] loop, started at index [i]: the index of
    the first element that looks like a flag, if there is one. *)
Fixpoint firstFlag (i : Z) (l : list string) : option Z :=
  match l with
  | [] => None
  | arg :: l' => if looksLikeFlag arg then Some i else firstFlag (i + 1) l'
  end.

Definition checkCmdArgLength (args : list string) (required : Z) : Val Z :=
  if len args <? required then Returns 0
  else
    match sliceTo args required with
    | Panics p => Panics p
    | Returns firstArgs =>
        match firstFlag 0 firstArgs with
        | Some i => Returns i
        | None => Returns required
        end
    end.

(** ** [walletPort] *)

Definition walletPort (params : string) : string :=
  if String.eqb params "testnet" then "8545"
  else if String.eqb params "mainnet" then "8545"
  else "8545".

(** ** Go's [net.SplitHostPort] and [net.JoinHostPort]

    As in the [net] package since Go 1.9: the port starts after the last
    colon, and a host is put in brackets by [JoinHostPort] exactly when it
    holds a colon. *)

Module GoNet.

(** [net.AddrError]. *)
Record AddrError : Type := mkAddrError { Err : string; Addr : string }.

(** The [Error] method of [AddrError]. *)
Definition AddrError_Error (e : AddrError) : string :=
  if String.eqb (Addr e) EmptyString then Err e
  else "address " ++ Addr e ++ ": " ++ Err e.

Definition missingPort : string := "missing port in address".
Definition tooManyColons : string := "too many colons in address".
Definition missingBracket : string := "missing ']' in address".
Definition unexpectedOpen : string := "unexpected '[' in address".
Definition unexpectedClose : string := "unexpected ']' in address".

Definition addrErr {A : Type} (addr why : string) : AddrError + A :=
  inl (mkAddrError why addr).

(** The first half of [SplitHostPort]: the host, and the offsets [j] and
    [k] before which no ['['] respectively [']'] is looked for.  [i] is
    the position of the last colon. *)
Definition splitHost (hostport : string) (i : nat)
  : AddrError + (string * nat * nat) :=
  if byteIs 0 hostport "[" then
    match indexByte "]" hostport with
    | None => addrErr hostport missingBracket
    | Some end_ =>
        if Nat.eqb (end_ + 1) (String.length hostport) then
          addrErr hostport missingPort
        else if Nat.eqb (end_ + 1) i then
          inr (substring 1 (end_ - 1) hostport, 1%nat, (end_ + 1)%nat)
        else if byteIs (end_ + 1) hostport ":" then
          addrErr hostport tooManyColons
        else addrErr hostport missingPort
    end
  else
    let host := substring 0 i hostport in
    if containsByte ":" host then addrErr hostport tooManyColons
    else inr (host, O, O).

Definition SplitHostPort (hostport : string)
  : AddrError + (string * string) :=
  match lastIndexByte ":" hostport with
  | None => addrErr hostport missingPort
  | Some i =>
      match splitHost hostport i with
      | inl e => inl e
      | inr (host, j, k) =>
          if containsByte "[" (strFrom j hostport) then
            addrErr hostport unexpectedOpen
          else if containsByte "]" (strFrom k hostport) then
            addrErr hostport unexpectedClose
          else inr (host, strFrom (i + 1) hostport)
      end
  end.

Definition JoinHostPort (host port : string) : string :=
  if containsByte ":" host then "[" ++ host ++ "]:" ++ port
  else host ++ ":" ++ port.

End GoNet.

(** ** [normalizeAddress] *)

(** The two results [(hostport string, err error)]; the error is the
    [*net.AddrError] of the first parse, or [nil]. *)
Definition normalizeAddress (addr defaultPort : string)
  : string * option GoNet.AddrError :=
  match GoNet.SplitHostPort addr with
  | inr (host, port) => (GoNet.JoinHostPort host port, None)
  | inl origErr =>
      let addr := GoNet.JoinHostPort addr defaultPort in
      match GoNet.SplitHostPort addr with
      | inl _ => (EmptyString, Some origErr)
      | inr _ => ("http://" ++ addr, None)
      end
  end.

(** ** Go's [context] package, as far as deadlines go *)

(** [time.Duration]: a number of nanoseconds. *)
Definition Duration : Type := Z.
Definition Second : Duration := 1000000000.

Inductive Context : Type :=
| Background
| WithTimeout (parent : Context) (timeout : Duration).

(** The longest a call made under [ctx] may wait, counted from the
    moment [ctx] was built: the shortest timeout on the way to the root;
    [None] when there is none. *)
Fixpoint bound (ctx : Context) : option Duration :=
  match ctx with
  | Background => None
  | WithTimeout parent d =>
      match bound parent with
      | None => Some d
      | Some d' => Some (Z.min d d')
      end
  end.

(** [ctx] is [root] or was derived from it. *)
Fixpoint derivedFrom (root ctx : Context) : Prop :=
  ctx = root \/
  match ctx with
  | Background => False
  | WithTimeout parent _ => derivedFrom root parent
  end.

(** ** The flag set *)

(** The four flags defined on [flagset], with the arguments left over by
    the last [Parse] ([f.args]). *)
Record FlagSet : Type := mkFlagSet {
  connectFlag : string;      (* -s *)
  rpcuserFlag : string;      (* -rpcuser *)
  rpcpassFlag : string;      (* -rpcpass *)
  testnetFlag : bool;        (* -testnet *)
  flagArgs : list string
}.

Definition flagset0 : FlagSet :=
  mkFlagSet "localhost" EmptyString EmptyString false [].

Inductive Flag : Type := flag_s | flag_rpcuser | flag_rpcpass | flag_testnet.

(** [f.formal[name]]. *)
Definition formal (name : string) : option Flag :=
  if String.eqb name "s" then Some flag_s
  else if String.eqb name "rpcuser" then Some flag_rpcuser
  else if String.eqb name "rpcpass" then Some flag_rpcpass
  else if String.eqb name "testnet" then Some flag_testnet
  else None.

Definition IsBoolFlag (fl : Flag) : bool :=
  match fl with flag_testnet => true | _ => false end.

(** What [Parse] can complain about. *)
Inductive FlagError : Type :=
| BadFlagSyntax (s : string)            (* bad flag syntax: s *)
| NotDefined (name : string)            (* flag provided but not defined: -name *)
| NeedsArgument (name : string)         (* flag needs an argument: -name *)
| InvalidBoolean (value name : string)  (* invalid boolean value for -name *)
| ErrHelp.                              (* flag: help requested *)

Definition setArgs (f : FlagSet) (args : list string) : FlagSet :=
  mkFlagSet (connectFlag f) (rpcuserFlag f) (rpcpassFlag f) (testnetFlag f) args.

(** [Set] of a string-valued flag. *)
Definition setString (fl : Flag) (v : string) (f : FlagSet) : FlagSet :=
  match fl with
  | flag_s => mkFlagSet v (rpcuserFlag f) (rpcpassFlag f) (testnetFlag f) (flagArgs f)
  | flag_rpcuser => mkFlagSet (connectFlag f) v (rpcpassFlag f) (testnetFlag f) (flagArgs f)
  | flag_rpcpass => mkFlagSet (connectFlag f) (rpcuserFlag f) v (testnetFlag f) (flagArgs f)
  | flag_testnet => f
  end.

Definition setBool (fl : Flag) (b : bool) (f : FlagSet) : FlagSet :=
  match fl with
  | flag_testnet => mkFlagSet (connectFlag f) (rpcuserFlag f) (rpcpassFlag f) b (flagArgs f)
  | _ => f
  end.

Definition strIn (s : string) (l : list string) : bool := existsb (String.eqb s) l.

(** [strconv.ParseBool]. *)
Definition ParseBool (str : string) : option bool :=
  if strIn str ["1"; "t"; "T"; "TRUE"; "true"; "True"] then Some true
  else if strIn str ["0"; "f"; "F"; "FALSE"; "false"; "False"] then Some false
  else None.

(** The search for an equals sign in [parseOne], which starts at index 1:
    the name before it and the value after it. *)
Definition splitValue (name : string) : string * option string :=
  match name with
  | EmptyString => (name, None)
  | String c rest =>
      match indexByte "=" rest with
      | Some i => (String c (substring 0 i rest), Some (strFrom (i + 1) rest))
      | None => (name, None)
      end
  end.

(** The loop of [FlagSet.Parse] around [parseOne], up to the point where
    the error handling of the flag set takes over: the flag set after the
    last flag that was accepted, and the error that stopped the loop, if
    one did. *)
Fixpoint parseArgs (f : FlagSet) (args : list string) {struct args}
  : FlagSet * option FlagError :=
  match args with
  | [] => (setArgs f [], None)
  | s :: rest =>
      if (String.length s <? 2)%nat || negb (byteIs 0 s "-") then
        (setArgs f args, None)
      else if byteIs 1 s "-" && (String.length s =? 2)%nat then
        (setArgs f rest, None)               (* a lone double dash ends the flags *)
      else
        let numMinuses := if byteIs 1 s "-" then 2%nat else 1%nat in
        let name := strFrom numMinuses s in
        if (String.length name =? 0)%nat || byteIs 0 name "-" || byteIs 0 name "=" then
          (setArgs f args, Some (BadFlagSyntax s))
        else
          let (name, value) := splitValue name in
          match formal name with
          | None =>
              if String.eqb name "help" || String.eqb name "h" then
                (setArgs f rest, Some ErrHelp)
              else (setArgs f rest, Some (NotDefined name))
          | Some fl =>
              if IsBoolFlag fl then
                match value with
                | Some v =>
                    match ParseBool v with
                    | Some b => parseArgs (setBool fl b f) rest
                    | None => (setArgs f rest, Some (InvalidBoolean v name))
                    end
                | None => parseArgs (setBool fl true f) rest
                end
              else
                match value with
                | Some v => parseArgs (setString fl v f) rest
                | None =>
                    match rest with
                    | v :: rest' => parseArgs (setString fl v f) rest'
                    | [] => (setArgs f rest, Some (NeedsArgument name))
                    end
                end
          end
  end.

(** ** The process: flag set, output, termination *)

Inductive RpcArg : Type :=
| ArgString (s : string)
| ArgBool (b : bool).

(** An [rpc.Client], known by the address it was dialled with. *)
Record Client : Type := mkClient { endpoint : string }.

(** What the process does that can be seen from outside.  [Stdout] is a
    line printed with [fmt.Println] outside the usage text and [Stderr] a
    line [main] prints on standard error; the usage text, which
    [flagset.Usage] prints on standard output, and the complaint of the
    flag package, which goes to standard error, are events of their own. *)
Inductive Event : Type :=
| Stdout (line : string)                  (* fmt.Println *)
| Stderr (line : string)                  (* fmt.Fprintln(os.Stderr, ...) *)
| PrintlnErr (what : string) (e : error)  (* the builtin println *)
| FlagMessage (e : FlagError)             (* the complaint of the flag package *)
| Usage                                   (* flagset.Usage() *)
| RpcDial (rawurl : string)               (* rpc.Dial(rawurl) *)
| RpcCall (c : Client) (ctx : Context) (method : string) (args : list RpcArg)
| RpcClose (c : Client).

(** How a process ends: [os.Exit(code)] (returning from [main] is
    [Exit 0]) or an unrecovered panic. *)
Inductive Termination : Type :=
| Exit (code : Z)
| Panicked (p : PanicValue).

(** The exit status the operating system sees; the Go run time ends a
    panicking program with status 2. *)
Definition exitStatus (t : Termination) : Z :=
  match t with
  | Exit code => code
  | Panicked _ => 2
  end.

Record Process : Type := mkProcess {
  flagset : FlagSet;
  output : list Event
}.

Definition process0 : Process := mkProcess flagset0 [].

Inductive Result (A : Type) : Type :=
| Done (a : A) (p : Process)
| Halt (t : Termination) (p : Process).
Arguments Done {A} a p.
Arguments Halt {A} t p.

(** Code that runs inside the process. *)
Definition M (A : Type) : Type := Process -> Result A.

Definition ret {A : Type} (a : A) : M A := fun p => Done a p.

Definition bind {A B : Type} (m : M A) (k : A -> M B) : M B :=
  fun p =>
    match m p with
    | Done a p' => k a p'
    | Halt t p' => Halt t p'
    end.

Declare Scope proc_scope.
Delimit Scope proc_scope with proc.
Notation "x <- m ;; k" := (bind m (fun x => k))
  (at level 61, m at next level, right associativity) : proc_scope.
Notation "m ;; k" := (bind m (fun _ => k))
  (at level 61, right associativity) : proc_scope.
Local Open Scope proc_scope.

Definition emit (e : Event) : M unit :=
  fun p => Done tt (mkProcess (flagset p) (output p ++ [e])%list).

Definition getFlags : M FlagSet := fun p => Done (flagset p) p.

Definition putFlags (f : FlagSet) : M unit :=
  fun p => Done tt (mkProcess f (output p)).

(** [os.Exit]. *)
Definition os_Exit {A : Type} (code : Z) : M A := fun p => Halt (Exit code) p.

Definition panic {A : Type} (v : PanicValue) : M A := fun p => Halt (Panicked v) p.

Definition liftVal {A : Type} (v : Val A) : M A :=
  match v with
  | Returns a => ret a
  | Panics pv => panic pv
  end.

(** [defer d] followed by [body]: [d] runs when [body] returns and when it
    panics, not when the process exits. *)
Definition defer {A : Type} (d : M unit) (body : M A) : M A :=
  fun p =>
    match body p with
    | Done a p' =>
        match d p' with
        | Done _ p'' => Done a p''
        | Halt t p'' => Halt t p''
        end
    | Halt (Panicked v) p' =>
        match d p' with
        | Done _ p'' => Halt (Panicked v) p''
        | Halt t p'' => Halt t p''
        end
    | Halt (Exit code) p' => Halt (Exit code) p'
    end.

(** What the process can ask of the outside: dialling the server and the
    answer of the server to a call that returns a block. *)
Record World : Type := mkWorld {
  rpc_Dial : string -> error + Client;
  CallContext : Client -> Context -> string -> list RpcArg -> error + Block
}.

(** ** The flag set inside the process *)

(** [flagset.Usage], as set in [init]: the usage text followed by
    [PrintDefaults]. *)
Definition flagset_Usage : M unit := emit Usage.

(** [flagset.Parse]; the flag set was made with [flag.ExitOnError], so a
    complaint is printed with the usage text and ends the process: with
    status 0 when help was asked for (so since Go 1.15; status 2 before),
    with status 2 otherwise. *)
Definition flagset_Parse (arguments : list string) : M unit :=
  f <- getFlags ;;
  match parseArgs f arguments with
  | (f', None) => putFlags f'
  | (f', Some ErrHelp) => putFlags f' ;; flagset_Usage ;; os_Exit 0
  | (f', Some e) =>
      putFlags f' ;; emit (FlagMessage e) ;; flagset_Usage ;; os_Exit 2
  end.

Definition flagset_Args : M (list string) :=
  f <- getFlags ;; ret (flagArgs f).

Definition flagset_NArg : M Z :=
  f <- getFlags ;; ret (len (flagArgs f)).

(** [flagset.Arg(i)]: the empty string when there is no such argument. *)
Definition flagset_Arg (i : Z) : M string :=
  f <- getFlags ;;
  ret (if (i <? 0) || (len (flagArgs f) <=? i) then EmptyString
       else nth (Z.to_nat i) (flagArgs f) EmptyString).

(** ** Commands *)

Record initiateCmd : Type := mkInitiateCmd { }.

(** The values of the interface [command]: the types with a [runCommand]
    method.  A variable of type [command] is an [option command], [None]
    being the nil interface. *)
Inductive command : Type :=
| cmd_initiate (cmd : initiateCmd).

(** The parameter [ctx] is shadowed at once by the context the method
    builds itself.  The deferred [cancel] only releases the timer of that
    context and prints nothing, so it leaves no trace here. *)
Definition initiateCmd_runCommand (w : World) (cmd : initiateCmd)
    (ctx : Context) (c : Client) : M (option error) :=
  let ctx := WithTimeout Background (10 * Second) in
  emit (RpcCall c ctx "eth_getBlockByNumber" [ArgString "latest"; ArgBool false]) ;;
  match CallContext w c ctx "eth_getBlockByNumber" [ArgString "latest"; ArgBool false] with
  | inl err =>
      emit (PrintlnErr "can't get latest block:" err) ;;
      ret (Some err)
  | inr lastBlock =>
      emit (Stdout (Number lastBlock)) ;;
      emit (Stdout (Hash lastBlock)) ;;
      ret None
  end.

(** The method call [cmd.runCommand(ctx, c)] on an interface value. *)
Definition runCommand (w : World) (cmd : option command)
    (ctx : Context) (c : Client) : M (option error) :=
  match cmd with
  | None => panic NilDereference
  | Some (cmd_initiate ic) => initiateCmd_runCommand w ic ctx c
  end.

(** ** [run] and [main] *)

(** The first [switch] of [run]: the number of arguments of a command. *)
Definition cmdArgsOf (name : string) : option Z :=
  if String.eqb name "initiate" then Some 2
  else if String.eqb name "participate" then Some 3
  else if String.eqb name "redeem" then Some 3
  else if String.eqb name "extractsecret" then Some 2
  else if String.eqb name "auditcontract" then Some 2
  else None.

(** The second [switch] of [run]: the value of [cmd] after it. *)
Definition cmdOf (name : string) : option command :=
  if String.eqb name "initiate" then Some (cmd_initiate mkInitiateCmd)
  else if String.eqb name "participate" then None
  else if String.eqb name "redeem" then None
  else if String.eqb name "extractsecret" then None
  else if String.eqb name "auditcontract" then None
  else None.

Definition run (w : World) (osArgs : list string) : M (option error * bool) :=
  flagset_Parse osArgs ;;
  args <- flagset_Args ;;
  match args with
  | [] => ret (None, true)
  | args0 :: _ =>
      match cmdArgsOf args0 with
      | None => ret (Some ("unknown command " ++ args0), true)
      | Some cmdArgs =>
          cmdTail <- liftVal (sliceFrom args 1) ;;
          nArgs <- liftVal (checkCmdArgLength cmdTail cmdArgs) ;;
          flagTail <- liftVal (sliceFrom args (1 + nArgs)) ;;
          flagset_Parse flagTail ;;
          if nArgs <? cmdArgs then
            ret (Some (args0 ++ ": too few arguments"), true)
          else
            n <- flagset_NArg ;;
            if negb (n =? 0) then
              arg0 <- flagset_Arg 0 ;;
              ret (Some ("unexpected argument: " ++ arg0), true)
            else
              let cmd := cmdOf args0 in
              f <- getFlags ;;
              match normalizeAddress (connectFlag f) (walletPort "mainnet") with
              | (_, Some err) =>
                  ret (Some ("geth server address: " ++ GoNet.AddrError_Error err), true)
              | (connect, None) =>
                  emit (RpcDial connect) ;;
                  match rpc_Dial w connect with
                  | inl err => ret (Some ("rpc connect: " ++ err), false)
                  | inr client =>
                      defer (emit (RpcClose client))
                        (err <- runCommand w cmd Background client ;;
                         ret (err, false))
                  end
              end
      end
  end.

Definition main (w : World) (osArgs : list string) : M unit :=
  r <- run w osArgs ;;
  let (err, showUsage) := r in
  match err with
  | Some e => emit (Stderr e)
  | None => ret tt
  end ;;
  (if showUsage then flagset_Usage else ret tt) ;;
  if (match err with Some _ => true | None => false end) || showUsage
  then os_Exit 1
  else ret tt.

(** One run of the program with the command line [osArgs] (that is
    [os.Args[1:]]): what it printed and how it ended. *)
Definition execute (w : World) (osArgs : list string) : list Event * Termination :=
  match main w osArgs process0 with
  | Done _ p => (output p, Exit 0)
  | Halt t p => (output p, t)
  end.

(** A world for examples: every address can be dialled and the latest
    block is block 16. *)
Definition sampleWorld : World :=
  mkWorld (fun addr => inr (mkClient addr))
          (fun _ _ _ _ => inr (mkBlock "0x10" "0xabc")).

(** ** Vocabulary of the statements *)

(** An argument that starts with a dash and is not one character long. *)
Definition dashed (arg : string) : Prop :=
  HasPrefix arg "-" = true /\ String.length arg <> 1%nat.

(** The number of positional arguments given to a command: the words
    after the command word up to the first one that looks like a flag. *)
Fixpoint positionals (l : list string) : nat :=
  match l with
  | [] => O
  | arg :: l' => if looksLikeFlag arg then O else S (positionals l')
  end.

(** The contexts of the RPC calls in an output. *)
Fixpoint rpcContexts (out : list Event) : list Context :=
  match out with
  | [] => []
  | RpcCall _ ctx _ _ :: out' => ctx :: rpcContexts out'
  | _ :: out' => rpcContexts out'
  end.

(** The events that write on standard output and on standard error. *)
Definition onStdout (ev : Event) : bool :=
  match ev with
  | Stdout _ | Usage => true
  | _ => false
  end.


(** A string without bracket, and one without bracket or colon. *)
Definition bracketFree (s : string) : Prop :=
  containsByte "[" s = false /\ containsByte "]" s = false.

Definition plain (s : string) : Prop :=
  containsByte ":" s = false /\ bracketFree s.

(** The one call [initiate] makes on the server. *)
Definition latestBlockCall (c : Client) : Event :=
  RpcCall c (WithTimeout Background (10 * Second)) "eth_getBlockByNumber"
    [ArgString "latest"; ArgBool false].

(** The ways [run] can end, started with the output [out] already
    printed. *)
Inductive RunOutcome (out : list Event)
  : Result (option error * bool) -> Prop :=
| FlagRejected f e :
    e <> ErrHelp ->
    RunOutcome out (Halt (Exit 2) (mkProcess f (out ++ [FlagMessage e; Usage])))
| HelpRequested f :
    RunOutcome out (Halt (Exit 0) (mkProcess f (out ++ [Usage])))
| BadArguments f err :
    RunOutcome out (Done (err, true) (mkProcess f out))
| DialFailed f connect err :
    RunOutcome out (Done (Some err, false) (mkProcess f (out ++ [RpcDial connect])))
| NilCommand f connect c :
    RunOutcome out
      (Halt (Panicked NilDereference)
         (mkProcess f (out ++ [RpcDial connect; RpcClose c])))
| BlockPrinted f connect c b :
    RunOutcome out
      (Done (None, false)
         (mkProcess f (out ++ [RpcDial connect; latestBlockCall c;
                               Stdout (Number b); Stdout (Hash b);
                               RpcClose c])))
| CallFailed f connect c err :
    RunOutcome out
      (Done (Some err, false)
         (mkProcess f (out ++ [RpcDial connect; latestBlockCall c;
                               PrintlnErr "can't get latest block:" err;
                               RpcClose c]))).

(** What one run of the program looks like from outside: what it printed
    and did on the network, and how it ended. *)
Inductive Ending (w : World) : list Event -> Termination -> Prop :=
| EndFlagRejected e :
    e <> ErrHelp -> Ending w [FlagMessage e; Usage] (Exit 2)
| EndHelp : Ending w [Usage] (Exit 0)
| EndNoCommand : Ending w [Usage] (Exit 1)
| EndBadArguments msg : Ending w [Stderr msg; Usage] (Exit 1)
| EndDialFailed connect err :
    rpc_Dial w connect = inl err ->
    Ending w [RpcDial connect; Stderr ("rpc connect: " ++ err)] (Exit 1)
| EndNilCommand connect c :
    rpc_Dial w connect = inr c ->
    Ending w [RpcDial connect; RpcClose c] (Panicked NilDereference)
| EndBlockPrinted connect c b :
    rpc_Dial w connect = inr c ->
    CallContext w c (WithTimeout Background (10 * Second))
      "eth_getBlockByNumber" [ArgString "latest"; ArgBool false] = inr b ->
    Ending w [RpcDial connect; latestBlockCall c; Stdout (Number b);
              Stdout (Hash b); RpcClose c] (Exit 0)
| EndCallFailed connect c err :
    rpc_Dial w connect = inr c ->
    CallContext w c (WithTimeout Background (10 * Second))
      "eth_getBlockByNumber" [ArgString "latest"; ArgBool false] = inl err ->
    Ending w [RpcDial connect; latestBlockCall c;
              PrintlnErr "can't get latest block:" err; RpcClose c;
              Stderr err] (Exit 1).

(** * Properties *)

(** ** [checkCmdArgLength] *)

Lemma looksLikeFlag_dashed (arg : string) :
  looksLikeFlag arg = true <-> dashed arg.
Proof.
  unfold looksLikeFlag, dashed. rewrite andb_true_iff, negb_true_iff.
  rewrite Nat.eqb_neq. tauto.
Qed.

Lemma looksLikeFlag_not_dashed (arg : string) :
  looksLikeFlag arg = false <-> ~ dashed arg.
Proof.
  rewrite <- looksLikeFlag_dashed. destruct (looksLikeFlag arg); split; congruence.
Qed.

Lemma firstFlag_Some (l : list string) :
  forall i r, firstFlag i l = Some r ->
    exists k arg, r = i + Z.of_nat k /\ nth_error l k = Some arg /\
      dashed arg /\
      forall j b, (j < k)%nat -> nth_error l j = Some b -> ~ dashed b.
Proof.
  induction l as [|a l IH]; intros i r H; simpl in H; [discriminate|].
  destruct (looksLikeFlag a) eqn:Ha.
  - injection H as <-. exists O, a. repeat split.
    + lia.
    + now apply looksLikeFlag_dashed.
    + now apply looksLikeFlag_dashed.
    + intros j b Hj. lia.
  - destruct (IH _ _ H) as (k & arg & -> & Hk & Hd & Hbefore).
    exists (S k), arg. repeat split; try assumption; try apply Hd.
    + lia.
    + intros [|j] b Hj Hb; simpl in Hb.
      * injection Hb as <-. now apply looksLikeFlag_not_dashed.
      * apply (Hbefore j b); [lia | assumption].
Qed.

Lemma firstFlag_None (l : list string) :
  forall i, firstFlag i l = None ->
    forall j b, nth_error l j = Some b -> ~ dashed b.
Proof.
  induction l as [|a l IH]; intros i H j b Hb.
  - destruct j; discriminate.
  - simpl in H. destruct (looksLikeFlag a) eqn:Ha; [discriminate|].
    destruct j as [|j]; simpl in Hb.
    + injection Hb as <-. now apply looksLikeFlag_not_dashed.
    + exact (IH _ H j b Hb).
Qed.

Lemma nth_error_firstn_lt {A : Type} (l : list A) :
  forall n j, (j < n)%nat -> nth_error (firstn n l) j = nth_error l j.
Proof.
  induction l as [|a l IH]; intros n j Hj.
  - rewrite firstn_nil. reflexivity.
  - destruct n as [|n]; [lia|]. destruct j as [|j]; simpl; [reflexivity|].
    apply IH. lia.
Qed.

Lemma nth_error_firstn_Some {A : Type} (l : list A) :
  forall n j a, nth_error (firstn n l) j = Some a ->
    (j < n)%nat /\ nth_error l j = Some a.
Proof.
  induction l as [|a l IH]; intros n j b H.
  - rewrite firstn_nil in H. destruct j; discriminate.
  - destruct n as [|n]; [destruct j; discriminate|].
    destruct j as [|j]; simpl in H.
    + split; [lia | exact H].
    + destruct (IH _ _ _ H). split; [lia | assumption].
Qed.

(** C10: below the required length the answer is 0; otherwise it is the
    index of the first of the first [required] arguments that starts with
    a dash and is not one character long, or [required] when there is
    none; a one-character argument always counts as positional. *)
Theorem checkCmdArgLength_spec (args : list string) (required : Z) :
  0 <= required ->
  (len args < required -> checkCmdArgLength args required = Returns 0) /\
  (required <= len args ->
     (exists i arg,
         checkCmdArgLength args required = Returns (Z.of_nat i) /\
         Z.of_nat i < required /\
         nth_error args i = Some arg /\ dashed arg /\
         forall j b, (j < i)%nat -> nth_error args j = Some b -> ~ dashed b)
     \/
     (checkCmdArgLength args required = Returns required /\
      forall j b, Z.of_nat j < required -> nth_error args j = Some b -> ~ dashed b)) /\
  (forall c : ascii, checkCmdArgLength [String c EmptyString] 1 = Returns 1).
Proof.
  intros Hreq. split; [|split].
  - intros Hlt. unfold checkCmdArgLength.
    destruct (Z.ltb_spec (len args) required); [reflexivity | lia].
  - intros Hle. unfold checkCmdArgLength, sliceTo.
    destruct (Z.ltb_spec (len args) required); [lia|].
    destruct (Z.leb_spec 0 required); [|lia].
    destruct (Z.leb_spec required (len args)); [|lia]. simpl.
    destruct (firstFlag 0 (firstn (Z.to_nat required) args)) as [r|] eqn:Hff.
    + left. destruct (firstFlag_Some _ _ _ Hff) as (k & arg & -> & Hk & Hd & Hbefore).
      apply nth_error_firstn_Some in Hk. destruct Hk as [Hlt Hk].
      exists k, arg. repeat split; try assumption; try apply Hd.
      * lia.
      * intros j b Hj Hb. apply (Hbefore j b Hj).
        rewrite nth_error_firstn_lt; [assumption | lia].
    + right. split; [reflexivity|]. intros j b Hj Hb.
      apply (firstFlag_None _ _ Hff j b).
      rewrite nth_error_firstn_lt; [assumption | lia].
  - intros c. unfold checkCmdArgLength, sliceTo, looksLikeFlag. simpl.
    reflexivity.
Qed.

Lemma checkCmdArgLength_spec_witness :
  0 <= 3 /\
  checkCmdArgLength ["a"; "-"; "-s"; "x"] 3 = Returns 2 /\
  checkCmdArgLength ["a"; "-"] 3 = Returns 0 /\
  checkCmdArgLength ["-"] 1 = Returns 1.
Proof.
  assert (H : 0 <= 3) by lia.
  split; [exact H|].
  split; [reflexivity|].
  split.
  - apply (proj1 (checkCmdArgLength_spec ["a"; "-"] 3 H)). unfold len. simpl. lia.
  - apply (proj2 (proj2 (checkCmdArgLength_spec ["a"; "-"] 3 H))).
Defined.

(** ** [normalizeAddress] *)

Lemma containsByte_app (c : ascii) (a b : string) :
  containsByte c (a ++ b) = containsByte c a || containsByte c b.
Proof.
  unfold containsByte. induction a as [|x a IH]; simpl.
  - reflexivity.
  - destruct (Ascii.eqb x c); [reflexivity|].
    destruct (indexByte c (a ++ b)), (indexByte c a); simpl in *;
      try reflexivity; try discriminate; exact IH.
Qed.

Lemma containsByte_cons (c a : ascii) (s : string) :
  containsByte c (String a s) = Ascii.eqb a c || containsByte c s.
Proof.
  unfold containsByte. cbn [indexByte].
  destruct (Ascii.eqb a c); [reflexivity|].
  destruct (indexByte c s); reflexivity.
Qed.

Lemma lastIndexByte_None (c : ascii) (s : string) :
  lastIndexByte c s = None <-> containsByte c s = false.
Proof.
  unfold containsByte. induction s as [|x s IH]; simpl.
  - tauto.
  - destruct (lastIndexByte c s), (Ascii.eqb x c), (indexByte c s); simpl in *;
      split; intros H; try reflexivity; try discriminate;
      try (apply IH in H; discriminate); try (apply IH; reflexivity).
Qed.

Lemma lastIndexByte_app_sep (c : ascii) (a d : string) :
  containsByte c d = false ->
  lastIndexByte c (a ++ String c d) = Some (String.length a).
Proof.
  intros Hd. apply lastIndexByte_None in Hd.
  induction a as [|x a IH]; simpl.
  - rewrite Hd, Ascii.eqb_refl. reflexivity.
  - rewrite IH. reflexivity.
Qed.

Lemma substring_prefix (a b : string) :
  substring 0 (String.length a) (a ++ b) = a.
Proof.
  induction a as [|x a IH]; simpl.
  - destruct b; reflexivity.
  - rewrite IH. reflexivity.
Qed.

Lemma substring_all (s : string) : substring 0 (String.length s) s = s.
Proof.
  induction s as [|x s IH]; simpl; [reflexivity|].
  f_equal. exact IH.
Qed.

Lemma strFrom_0 (s : string) : strFrom 0 s = s.
Proof. unfold strFrom. rewrite Nat.sub_0_r. apply substring_all. Qed.

Lemma byteIs_0_app (a b : string) (c : ascii) :
  containsByte c a = false -> byteIs 0 b c = false ->
  byteIs 0 (a ++ b) c = false.
Proof.
  destruct a as [|x a]; [intros _ H; exact H|].
  rewrite containsByte_cons. intros H _. apply orb_false_iff in H.
  unfold byteIs. simpl. tauto.
Qed.

(** A host name without colon or bracket does not parse on its own, and
    parses once a port without colon or bracket is joined to it. *)
Lemma SplitHostPort_bare (host port : string) :
  containsByte ":" host = false ->
  containsByte "[" host = false -> containsByte "]" host = false ->
  containsByte ":" port = false ->
  containsByte "[" port = false -> containsByte "]" port = false ->
  GoNet.SplitHostPort host = inl (GoNet.mkAddrError GoNet.missingPort host) /\
  GoNet.JoinHostPort host port = host ++ ":" ++ port /\
  GoNet.SplitHostPort (host ++ ":" ++ port) = inr (host, port).
Proof.
  intros Hc Ho Hcl Pc Po Pcl. split; [|split].
  - unfold GoNet.SplitHostPort.
    rewrite (proj2 (lastIndexByte_None ":" host) Hc). reflexivity.
  - unfold GoNet.JoinHostPort. rewrite Hc. reflexivity.
  - unfold GoNet.SplitHostPort. simpl (":" ++ port).
    rewrite (lastIndexByte_app_sep ":" host port Pc).
    unfold GoNet.splitHost.
    rewrite (byteIs_0_app host (String ":" port) "[" Ho eq_refl).
    cbv zeta. rewrite substring_prefix, Hc, strFrom_0.
    rewrite !containsByte_app, !containsByte_cons, Ho, Hcl, Po, Pcl. simpl.
    f_equal. f_equal. unfold strFrom. clear.
    induction host as [|x h IH]; simpl.
    + try rewrite Nat.sub_0_r. apply substring_all.
    + exact IH.
Qed.

(** Every network has the same default port. *)
Lemma walletPort_constant (params : string) : walletPort params = "8545".
Proof.
  unfold walletPort.
  destruct (String.eqb params "testnet"), (String.eqb params "mainnet");
    reflexivity.
Qed.

(** The usual case: a bare host name gets the default port and the
    prefix. *)
Lemma normalizeAddress_bare_host (host params : string) :
  containsByte ":" host = false ->
  containsByte "[" host = false -> containsByte "]" host = false ->
  normalizeAddress host (walletPort params) =
    ("http://" ++ host ++ ":8545", None).
Proof.
  intros Hc Ho Hcl. rewrite walletPort_constant.
  destruct (SplitHostPort_bare host "8545" Hc Ho Hcl eq_refl eq_refl eq_refl)
    as (H1 & H2 & H3).
  unfold normalizeAddress. rewrite H1, H2, H3. reflexivity.
Qed.

(** An address with a port is handed on without the prefix, among them
    one that the bare-host case would have produced. *)
Example normalizeAddress_examples :
  normalizeAddress "localhost" "8545" = ("http://localhost:8545", None) /\
  normalizeAddress "localhost:8545" "8545" = ("localhost:8545", None) /\
  normalizeAddress "[::1]:30303" "8545" = ("[::1]:30303", None) /\
  normalizeAddress "::1" "8545" = ("http://[::1]:8545", None) /\
  normalizeAddress "[localhost" "8545" =
    (EmptyString, Some (GoNet.mkAddrError GoNet.missingPort "[localhost")).
Proof. repeat split. Qed.

(** ** The process *)

Lemma flagset_Parse_eq (arguments : list string) (p : Process) :
  flagset_Parse arguments p =
    match parseArgs (flagset p) arguments with
    | (f', None) => Done tt (mkProcess f' (output p))
    | (f', Some ErrHelp) => Halt (Exit 0) (mkProcess f' (output p ++ [Usage]))
    | (f', Some e) =>
        Halt (Exit 2) (mkProcess f' (output p ++ [FlagMessage e; Usage]))
    end.
Proof.
  unfold flagset_Parse, bind, getFlags, putFlags, flagset_Usage, emit, os_Exit.
  destruct (parseArgs (flagset p) arguments) as [f' [e|]]; [|reflexivity].
  destruct e; simpl; rewrite <- ?app_assoc; reflexivity.
Qed.

Lemma cmdArgsOf_range (name : string) (n : Z) :
  cmdArgsOf name = Some n -> n = 2 \/ n = 3.
Proof.
  unfold cmdArgsOf.
  repeat match goal with
         | |- context [String.eqb ?a ?b] => destruct (String.eqb a b)
         end; intros H; inversion H; auto.
Qed.

Lemma firstFlag_positionals (l : list string) :
  forall i, firstFlag i l =
    if (positionals l <? List.length l)%nat
    then Some (i + Z.of_nat (positionals l)) else None.
Proof.
  induction l as [|a l IH]; intros i; simpl; [reflexivity|].
  destruct (looksLikeFlag a).
  - simpl. f_equal. lia.
  - rewrite IH. change (S (positionals l) <? S (List.length l))%nat
      with (positionals l <? List.length l)%nat.
    destruct (positionals l <? List.length l)%nat; [f_equal; lia | reflexivity].
Qed.

Lemma positionals_le (l : list string) : (positionals l <= List.length l)%nat.
Proof.
  induction l as [|a l IH]; simpl; [lia|].
  destruct (looksLikeFlag a); simpl; lia.
Qed.

Lemma positionals_firstn (l : list string) :
  forall n, positionals (firstn n l) = Nat.min n (positionals l).
Proof.
  induction l as [|a l IH]; intros [|n]; simpl; try reflexivity.
  destruct (looksLikeFlag a); [reflexivity|]. simpl. now rewrite IH.
Qed.

(** [checkCmdArgLength] in terms of the number of positional arguments:
    it never panics on a non-negative [required]. *)
Lemma checkCmdArgLength_positionals (args : list string) (required : Z) :
  0 <= required ->
  checkCmdArgLength args required =
    Returns (if len args <? required then 0
             else Z.min required (Z.of_nat (positionals args))).
Proof.
  intros Hreq. unfold checkCmdArgLength, sliceTo.
  destruct (Z.ltb_spec (len args) required) as [|Hle]; [reflexivity|].
  destruct (Z.leb_spec 0 required); [|lia].
  destruct (Z.leb_spec required (len args)); [|lia]. simpl.
  rewrite firstFlag_positionals, positionals_firstn.
  unfold len in Hle. rewrite length_firstn.
  pose proof (positionals_le args).
  destruct (Nat.ltb_spec (Nat.min (Z.to_nat required) (positionals args))
              (Nat.min (Z.to_nat required) (List.length args)));
    f_equal; lia.
Qed.

Lemma sliceFrom_cons {A : Type} (a : A) (l : list A) (k : Z) :
  0 <= k <= len l ->
  sliceFrom (a :: l) (1 + k) = Returns (skipn (Z.to_nat k) l).
Proof.
  intros Hk. unfold sliceFrom, len in *. simpl List.length.
  destruct (Z.leb_spec 0 (1 + k)); [|lia].
  destruct (Z.leb_spec (1 + k) (Z.of_nat (S (List.length l)))); [|lia].
  cbn [andb]. replace (Z.to_nat (1 + k)) with (S (Z.to_nat k)) by lia.
  reflexivity.
Qed.

(** [run], executed symbolically: the monadic code with every step
    written out.  The slices never go out of range, so the only panic
    left is the call through a nil [cmd]. *)
Lemma run_unfold (w : World) (osArgs : list string) (p : Process) :
  run w osArgs p =
    match flagset_Parse osArgs p with
    | Halt t p1 => Halt t p1
    | Done _ p1 =>
        match flagArgs (flagset p1) with
        | [] => Done (None, true) p1
        | args0 :: cmdTail =>
            match cmdArgsOf args0 with
            | None => Done (Some ("unknown command " ++ args0), true) p1
            | Some cmdArgs =>
                let nArgs :=
                  if len cmdTail <? cmdArgs then 0
                  else Z.min cmdArgs (Z.of_nat (positionals cmdTail)) in
                match flagset_Parse (skipn (Z.to_nat nArgs) cmdTail) p1 with
                | Halt t p2 => Halt t p2
                | Done _ p2 =>
                    if nArgs <? cmdArgs then
                      Done (Some (args0 ++ ": too few arguments"), true) p2
                    else
                      match flagArgs (flagset p2) with
                      | arg0 :: _ =>
                          Done (Some ("unexpected argument: " ++ arg0), true) p2
                      | [] =>
                          match normalizeAddress (connectFlag (flagset p2))
                                  (walletPort "mainnet") with
                          | (_, Some err) =>
                              Done (Some ("geth server address: " ++
                                          GoNet.AddrError_Error err), true) p2
                          | (connect, None) =>
                              match rpc_Dial w connect with
                              | inl err =>
                                  Done (Some ("rpc connect: " ++ err), false)
                                    (mkProcess (flagset p2)
                                       (output p2 ++ [RpcDial connect]))
                              | inr client =>
                                  match cmdOf args0 with
                                  | None =>
                                      Halt (Panicked NilDereference)
                                        (mkProcess (flagset p2)
                                           (output p2 ++
                                            [RpcDial connect; RpcClose client]))
                                  | Some _ =>
                                      match CallContext w client
                                              (WithTimeout Background (10 * Second))
                                              "eth_getBlockByNumber"
                                              [ArgString "latest"; ArgBool false] with
                                      | inr b =>
                                          Done (None, false)
                                            (mkProcess (flagset p2)
                                               (output p2 ++
                                                [RpcDial connect;
                                                 latestBlockCall client;
                                                 Stdout (Number b);
                                                 Stdout (Hash b);
                                                 RpcClose client]))
                                      | inl err =>
                                          Done (Some err, false)
                                            (mkProcess (flagset p2)
                                               (output p2 ++
                                                [RpcDial connect;
                                                 latestBlockCall client;
                                                 PrintlnErr "can't get latest block:" err;
                                                 RpcClose client]))
                                      end
                                  end
                              end
                          end
                      end
                end
            end
        end
    end.
Proof.
  unfold run. unfold bind at 1.
  destruct (flagset_Parse osArgs p) as [[] p1|t p1]; [|reflexivity].
  unfold bind at 1. unfold flagset_Args at 1. unfold bind at 1, getFlags at 1, ret at 1.
  destruct (flagArgs (flagset p1)) as [|args0 cmdTail] eqn:A1; [reflexivity|].
  destruct (cmdArgsOf args0) as [cmdArgs|] eqn:C; [|reflexivity].
  assert (Hc : 0 <= cmdArgs) by (destruct (cmdArgsOf_range _ _ C); lia).
  unfold bind at 1.
  change 1 with (1 + 0) at 1. rewrite sliceFrom_cons by (unfold len; lia).
  simpl skipn. unfold liftVal at 1, ret at 1. unfold bind at 1.
  rewrite (checkCmdArgLength_positionals cmdTail cmdArgs Hc).
  set (nArgs := if len cmdTail <? cmdArgs then 0
                else Z.min cmdArgs (Z.of_nat (positionals cmdTail))).
  assert (Hn : 0 <= nArgs <= len cmdTail).
  { subst nArgs. pose proof (positionals_le cmdTail). unfold len.
    destruct (Z.ltb_spec (Z.of_nat (List.length cmdTail)) cmdArgs); lia. }
  unfold liftVal at 1, ret at 1. unfold bind at 1.
  rewrite sliceFrom_cons by exact Hn.
  unfold liftVal at 1, ret at 1. unfold bind at 1.
  destruct (flagset_Parse (skipn (Z.to_nat nArgs) cmdTail) p1) as [[] p2|t p2];
    [|reflexivity].
  destruct (nArgs <? cmdArgs); [reflexivity|].
  unfold bind at 1, flagset_NArg at 1. unfold bind at 1, getFlags at 1, ret at 1.
  destruct (flagArgs (flagset p2)) as [|arg0 rest] eqn:A2.
  - change (negb (len (@nil string) =? 0)) with false. cbv iota.
    unfold bind at 1, getFlags at 1.
    destruct (normalizeAddress (connectFlag (flagset p2)) (walletPort "mainnet"))
      as [connect [err|]]; [reflexivity|].
    unfold bind at 1, emit at 1. cbn [flagset output].
    destruct (rpc_Dial w connect) as [err|client]; [reflexivity|].
    unfold defer, runCommand.
    destruct (cmdOf args0) as [[ic]|].
    + unfold bind at 1, initiateCmd_runCommand.
      unfold bind at 1, emit at 1.
      destruct (CallContext w client (WithTimeout Background (10 * Second))
                  "eth_getBlockByNumber" [ArgString "latest"; ArgBool false])
        as [err|b]; unfold bind, emit, ret; simpl;
        rewrite <- ?app_assoc; reflexivity.
    + unfold bind, panic, emit. cbn [flagset output].
      rewrite <- ?app_assoc. reflexivity.
  - assert (E : (len (arg0 :: rest) =? 0) = false)
      by (apply Z.eqb_neq; unfold len; simpl List.length; lia).
    rewrite E. simpl negb. cbv iota.
    unfold flagset_Arg, bind, getFlags, ret. cbn [negb]. cbv beta iota.
    rewrite A2.
    assert (E2 : (len (arg0 :: rest) <=? 0) = false)
      by (apply Z.leb_gt; unfold len; simpl List.length; lia).
    rewrite E2. reflexivity.
Qed.

(** Every run ends in one of the seven ways of [RunOutcome]. *)
Lemma run_outcomes (w : World) (osArgs : list string) (p : Process) :
  RunOutcome (output p) (run w osArgs p).
Proof.
  rewrite run_unfold, flagset_Parse_eq.
  destruct (parseArgs (flagset p) osArgs) as [f1 [e|]].
  { destruct e; constructor; discriminate. }
  cbn [flagset output].
  destruct (flagArgs f1) as [|args0 cmdTail]; [constructor|].
  destruct (cmdArgsOf args0) as [cmdArgs|]; [|constructor].
  cbv zeta. rewrite flagset_Parse_eq. cbn [flagset output].
  destruct (parseArgs f1 _) as [f2 [e|]].
  { destruct e; constructor; discriminate. }
  destruct (_ <? cmdArgs); [constructor|].
  cbn [flagset output].
  destruct (flagArgs f2); [|constructor].
  destruct (normalizeAddress _ _) as [connect [err|]]; [constructor|].
  destruct (rpc_Dial w connect) as [err|client]; [constructor|].
  destruct (cmdOf args0); [|constructor].
  destruct (CallContext _ _ _ _ _); constructor.
Qed.

Lemma execute_of_run (w : World) (osArgs : list string) :
  execute w osArgs =
    match run w osArgs process0 with
    | Done (err, showUsage) p =>
        (((output p ++ match err with Some e => [Stderr e] | None => [] end)
            ++ (if showUsage then [Usage] else []))%list,
         Exit (if match err with Some _ => true | None => false end || showUsage
               then 1 else 0))
    | Halt t p => (output p, t)
    end.
Proof.
  unfold execute, main. unfold bind at 1.
  destruct (run w osArgs process0) as [[err showUsage] p|t p]; [|reflexivity].
  destruct err as [e|], showUsage;
    unfold bind, emit, ret, flagset_Usage, os_Exit; simpl;
    rewrite ?app_nil_r; reflexivity.
Qed.

(** ** The commands without an implementation *)

(** C1: an invocation of participate, redeem, extractsecret or
    auditcontract whose flags parse, whose arguments pass the count
    check and whose server can be dialled ends in the panic of a call
    through a nil interface, after the deferred close of the client; [run]
    returns no error value. *)
Theorem nil_command_panics (w : World) (osArgs : list string)
    (f1 f2 : FlagSet) (name : string) (cmdTail : list string)
    (cmdArgs nArgs : Z) (connect : string) (client : Client) :
  In name ["participate"; "redeem"; "extractsecret"; "auditcontract"] ->
  parseArgs flagset0 osArgs = (f1, None) ->
  flagArgs f1 = name :: cmdTail ->
  cmdArgsOf name = Some cmdArgs ->
  checkCmdArgLength cmdTail cmdArgs = Returns nArgs ->
  cmdArgs <= nArgs ->
  parseArgs f1 (skipn (Z.to_nat nArgs) cmdTail) = (f2, None) ->
  flagArgs f2 = [] ->
  normalizeAddress (connectFlag f2) (walletPort "mainnet") = (connect, None) ->
  rpc_Dial w connect = inr client ->
  run w osArgs process0 =
    Halt (Panicked NilDereference)
      (mkProcess f2 [RpcDial connect; RpcClose client]) /\
  execute w osArgs =
    ([RpcDial connect; RpcClose client], Panicked NilDereference).
Proof.
  intros Hname P1 A1 C K Hn P2 A2 N D.
  assert (Hc : 0 <= cmdArgs) by (destruct (cmdArgsOf_range _ _ C); lia).
  rewrite (checkCmdArgLength_positionals _ _ Hc) in K. injection K as K.
  assert (Hcmd : cmdOf name = None).
  { simpl in Hname. destruct Hname as [<-|[<-|[<-|[<-|[]]]]]; reflexivity. }
  assert (R : run w osArgs process0 =
              Halt (Panicked NilDereference)
                (mkProcess f2 [RpcDial connect; RpcClose client])).
  { rewrite run_unfold, flagset_Parse_eq. cbn [flagset process0].
    rewrite P1. cbn [flagset output]. rewrite A1, C. cbv zeta. rewrite K.
    rewrite flagset_Parse_eq. cbn [flagset output]. rewrite P2.
    destruct (Z.ltb_spec nArgs cmdArgs); [lia|].
    cbn [flagset output]. rewrite A2, N, D, Hcmd. reflexivity. }
  split; [exact R|].
  rewrite execute_of_run, R. reflexivity.
Qed.

Lemma nil_command_panics_witness :
  run sampleWorld ["participate"; "0x01"; "5"; "0xff"] process0 =
    Halt (Panicked NilDereference)
      (mkProcess flagset0
         [RpcDial "http://localhost:8545";
          RpcClose (mkClient "http://localhost:8545")]) /\
  execute sampleWorld ["participate"; "0x01"; "5"; "0xff"] =
    ([RpcDial "http://localhost:8545";
      RpcClose (mkClient "http://localhost:8545")], Panicked NilDereference).
Proof.
  apply (nil_command_panics sampleWorld ["participate"; "0x01"; "5"; "0xff"]
           (setArgs flagset0 ["participate"; "0x01"; "5"; "0xff"]) flagset0
           "participate" ["0x01"; "5"; "0xff"] 3 3
           "http://localhost:8545" (mkClient "http://localhost:8545")).
  - simpl. auto.
  - reflexivity.
  - reflexivity.
  - reflexivity.
  - reflexivity.
  - lia.
  - reflexivity.
  - reflexivity.
  - reflexivity.
  - reflexivity.
Defined.

(** ** Exit status *)

(** C2, as the specification words it, fails on a flag that is not
    defined: the flag package prints its complaint and the usage text and
    ends the process with status 2, neither 0 nor 1. *)
Lemma undefined_flag_exit_status :
  execute sampleWorld ["-bogus"] =
    ([FlagMessage (NotDefined "bogus"); Usage], Exit 2) /\
  exitStatus (snd (execute sampleWorld ["-bogus"])) <> 0 /\
  exitStatus (snd (execute sampleWorld ["-bogus"])) <> 1.
Proof. repeat split; discriminate. Qed.

(** C2, amended: when [run] returns, the exit status is 0 if it reports
    no error and asks for no usage text and 1 otherwise, and the usage
    text is printed exactly when [run] asks for it; when the flag package
    turns the command line down, it has printed the usage text and the
    exit status is 2, or 0 when help was asked for. *)
Theorem exit_status_rule (w : World) (osArgs : list string) :
  match run w osArgs process0 with
  | Done (err, showUsage) p =>
      execute w osArgs =
        (((output p ++ match err with Some e => [Stderr e] | None => [] end)
            ++ (if showUsage then [Usage] else []))%list,
         Exit (if match err with Some _ => true | None => false end || showUsage
               then 1 else 0)) /\
      ~ In Usage (output p)
  | Halt (Exit code) p =>
      execute w osArgs = (output p, Exit code) /\
      ((code = 2 /\ exists e, e <> ErrHelp /\ output p = [FlagMessage e; Usage]) \/
       (code = 0 /\ output p = [Usage]))
  | Halt (Panicked _) _ => True
  end.
Proof.
  rewrite execute_of_run.
  pose proof (run_outcomes w osArgs process0) as O.
  cbn [output process0] in O.
  inversion O; cbn [output app]; try exact I.
  - split; [reflexivity|]. left. split; [reflexivity|]. now exists e.
  - split; [reflexivity|]. right. split; reflexivity.
  - split; [reflexivity|]. intros [].
  - split; [reflexivity|]. simpl. intuition discriminate.
  - split; [reflexivity|]. simpl. intuition discriminate.
  - split; [reflexivity|]. simpl. intuition discriminate.
Qed.

(** ** The commands and their argument counts *)

Lemma prefix_dash (arg : string) : HasPrefix arg "-" = byteIs 0 arg "-".
Proof.
  unfold HasPrefix, byteIs. destruct arg as [|c s]; [reflexivity|].
  cbn [prefix String.get]. destruct (ascii_dec "-" c) as [<-|Hne].
  - destruct s; reflexivity.
  - destruct (Ascii.eqb_spec c "-"); congruence.
Qed.

(** [Parse] stops in front of a word that does not look like a flag. *)
Lemma parseArgs_positional (f : FlagSet) (arg : string) (rest : list string) :
  looksLikeFlag arg = false ->
  parseArgs f (arg :: rest) = (setArgs f (arg :: rest), None).
Proof.
  unfold looksLikeFlag. rewrite prefix_dash. intros H. cbn [parseArgs].
  destruct (Nat.ltb_spec (String.length arg) 2) as [|Hlen]; [reflexivity|].
  destruct (byteIs 0 arg "-"); [|reflexivity].
  destruct (Nat.eqb_spec (String.length arg) 1); [lia | discriminate].
Qed.


(** ** [initiate] *)

(** C4, as the specification words it, fails: what [initiate] prints does
    not depend on the amount (nor on the participant), so no amount can be
    read off it. *)
Lemma initiate_output_ignores_amount :
  execute sampleWorld ["initiate"; "0x01"; "5"] =
    ([RpcDial "http://localhost:8545";
      latestBlockCall (mkClient "http://localhost:8545");
      Stdout "0x10"; Stdout "0xabc";
      RpcClose (mkClient "http://localhost:8545")], Exit 0) /\
  execute sampleWorld ["initiate"; "0x02"; "7"] =
    execute sampleWorld ["initiate"; "0x01"; "5"] /\
  ~ (exists amountOf : list Event -> string,
       amountOf (fst (execute sampleWorld ["initiate"; "0x01"; "5"])) = "5" /\
       amountOf (fst (execute sampleWorld ["initiate"; "0x02"; "7"])) = "7").
Proof.
  split; [reflexivity|]. split; [reflexivity|].
  intros (amountOf & H5 & H7).
  change (execute sampleWorld ["initiate"; "0x02"; "7"])
    with (execute sampleWorld ["initiate"; "0x01"; "5"]) in H7.
  rewrite H5 in H7. discriminate.
Qed.

(** C4, amended: [initiate] with a participant address and an amount asks
    the server for the latest block, under a timeout of ten seconds, and
    prints the number and the hash of that block; a failed call is
    reported and its error returned.  Neither argument has any part in
    it. *)
Theorem initiate_prints_latest_block (w : World) (participant amount : string) :
  ~ dashed participant -> ~ dashed amount ->
  execute w ["initiate"; participant; amount] =
    match rpc_Dial w "http://localhost:8545" with
    | inl err =>
        ([RpcDial "http://localhost:8545"; Stderr ("rpc connect: " ++ err)],
         Exit 1)
    | inr c =>
        match CallContext w c (WithTimeout Background (10 * Second))
                "eth_getBlockByNumber" [ArgString "latest"; ArgBool false] with
        | inr lastBlock =>
            ([RpcDial "http://localhost:8545"; latestBlockCall c;
              Stdout (Number lastBlock); Stdout (Hash lastBlock);
              RpcClose c], Exit 0)
        | inl err =>
            ([RpcDial "http://localhost:8545"; latestBlockCall c;
              PrintlnErr "can't get latest block:" err;
              RpcClose c; Stderr err], Exit 1)
        end
    end.
Proof.
  intros Hp Ha. apply looksLikeFlag_not_dashed in Hp, Ha.
  rewrite execute_of_run, run_unfold, flagset_Parse_eq.
  cbn [flagset process0]. rewrite parseArgs_positional by reflexivity.
  cbn [flagset output setArgs flagArgs].
  change (cmdArgsOf "initiate") with (Some 2). cbv beta iota zeta.
  change (len [participant; amount] <? 2) with false. cbv beta iota.
  cbn [positionals]. rewrite Hp, Ha.
  change (Z.to_nat (Z.min 2 (Z.of_nat 2))) with 2%nat. cbn [skipn].
  rewrite flagset_Parse_eq. cbn [flagset parseArgs output setArgs flagArgs].
  change (Z.min 2 (Z.of_nat 2) <? 2) with false. cbv beta iota.
  cbn [connectFlag setArgs flagset0 output process0 app].
  change (normalizeAddress "localhost" (walletPort "mainnet"))
    with ("http://localhost:8545", @None GoNet.AddrError).
  cbv beta iota.
  destruct (rpc_Dial w "http://localhost:8545") as [err|c]; [reflexivity|].
  change (cmdOf "initiate") with (Some (cmd_initiate mkInitiateCmd)).
  cbv beta iota.
  destruct (CallContext w c _ _ _) as [err|lastBlock]; reflexivity.
Qed.

Lemma initiate_prints_latest_block_witness :
  execute sampleWorld ["initiate"; "0x01"; "5"] =
    ([RpcDial "http://localhost:8545";
      latestBlockCall (mkClient "http://localhost:8545");
      Stdout "0x10"; Stdout "0xabc";
      RpcClose (mkClient "http://localhost:8545")], Exit 0).
Proof.
  apply (initiate_prints_latest_block sampleWorld "0x01" "5").
  - unfold dashed. simpl. intros [H _]. discriminate.
  - unfold dashed. simpl. intros [H _]. discriminate.
Defined.

(** ** Deadlines *)

(** C5, as the specification words it, fails: called with a context that
    allows one second, [runCommand] makes its call under a context of its
    own, which allows ten seconds and does not descend from the one it
    was given. *)
Lemma caller_deadline_not_used :
  exists r p',
    initiateCmd_runCommand sampleWorld mkInitiateCmd
      (WithTimeout Background Second) (mkClient "http://localhost:8545")
      process0 = Done r p' /\
    rpcContexts (output p') = [WithTimeout Background (10 * Second)] /\
    ~ derivedFrom (WithTimeout Background Second)
        (WithTimeout Background (10 * Second)) /\
    bound (WithTimeout Background Second) = Some Second /\
    bound (WithTimeout Background (10 * Second)) = Some (10 * Second) /\
    Second < 10 * Second.
Proof.
  do 2 eexists. split; [reflexivity|]. split; [reflexivity|].
  split; [|repeat split].
  simpl. intros [H|[H|[]]]; discriminate.
Qed.

(** C5, amended: every call made on the server while a command runs is
    made under a timeout of ten seconds, which [runCommand] fixes itself
    on a fresh background context, whatever context it is given. *)
Theorem rpc_calls_bounded (w : World) :
  (forall cmd ctx c, exists r p',
      initiateCmd_runCommand w cmd ctx c process0 = Done r p' /\
      rpcContexts (output p') = [WithTimeout Background (10 * Second)]) /\
  (forall osArgs ctx,
      In ctx (rpcContexts (fst (execute w osArgs))) ->
      ctx = WithTimeout Background (10 * Second)) /\
  bound (WithTimeout Background (10 * Second)) = Some (10 * Second).
Proof.
  split; [|split; [|reflexivity]].
  - intros cmd ctx c. unfold initiateCmd_runCommand.
    unfold bind at 1, emit at 1.
    destruct (CallContext w c _ _ _) as [err|b];
      do 2 eexists; (split; [reflexivity|reflexivity]).
  - intros osArgs ctx. rewrite execute_of_run.
    pose proof (run_outcomes w osArgs process0) as O.
    cbn [output process0] in O.
    inversion O; cbn [output app fst]; simpl; try tauto.
    + destruct err; simpl; tauto.
    + intros [H|[]]. now symmetry.
    + intros [H|[]]. now symmetry.
Qed.

Lemma rpc_calls_bounded_witness :
  In (WithTimeout Background 10000000000)
     (rpcContexts (fst (execute sampleWorld ["initiate"; "0x01"; "5"]))) /\
  WithTimeout Background 10000000000 = WithTimeout Background (10 * Second).
Proof.
  assert (H : In (WithTimeout Background 10000000000)
                (rpcContexts (fst (execute sampleWorld ["initiate"; "0x01"; "5"]))))
    by (simpl; left; reflexivity).
  split; [exact H|].
  exact (proj1 (proj2 (rpc_calls_bounded sampleWorld))
           ["initiate"; "0x01"; "5"] _ H).
Defined.

(** ** The network flag *)

Lemma setBool_testnet_same (f : FlagSet) :
  setBool flag_testnet (testnetFlag f) f = f.
Proof. destruct f; reflexivity. Qed.

(** Parsing does the same whatever [testnetFlag] holds when it starts:
    the same words are consumed, the same error is found and the other
    flags get the same values. *)
Lemma parseArgs_testnet (b : bool) :
  forall (n : nat) (args : list string) (f : FlagSet),
    (List.length args <= n)%nat ->
    exists b',
      parseArgs (setBool flag_testnet b f) args =
        (setBool flag_testnet b' (fst (parseArgs f args)),
         snd (parseArgs f args)).
Proof.
  induction n as [|n IH]; intros args f Hlen.
  - destruct args; [|simpl in Hlen; lia]. exists b. reflexivity.
  - destruct args as [|s rest]; [exists b; reflexivity|].
    simpl in Hlen.
    assert (IH1 : forall g, exists b',
               parseArgs (setBool flag_testnet b g) rest =
                 (setBool flag_testnet b' (fst (parseArgs g rest)),
                  snd (parseArgs g rest)))
      by (intros g; apply IH; lia).
    assert (Same : forall g, exists b',
               parseArgs g rest =
                 (setBool flag_testnet b' (fst (parseArgs g rest)),
                  snd (parseArgs g rest))).
    { intros g. exists (testnetFlag (fst (parseArgs g rest))).
      rewrite setBool_testnet_same. now destruct (parseArgs g rest). }
    cbn [parseArgs].
    destruct ((String.length s <? 2)%nat || negb (byteIs 0 s "-"));
      [exists b; reflexivity|].
    destruct (byteIs 1 s "-" && (String.length s =? 2)%nat);
      [exists b; reflexivity|].
    match goal with
    | |- context [if ?c then (setArgs _ (s :: rest), Some (BadFlagSyntax s)) else _] =>
        destruct c; [exists b; reflexivity|]
    end.
    destruct (splitValue _) as [name value].
    destruct (formal name) as [fl|].
    + destruct fl; cbn [IsBoolFlag].
      * destruct value as [v|].
        -- apply (IH1 (setString flag_s v f)).
        -- destruct rest as [|v rest']; [exists b; reflexivity|].
           apply (IH rest' (setString flag_s v f)). simpl in Hlen. lia.
      * destruct value as [v|].
        -- apply (IH1 (setString flag_rpcuser v f)).
        -- destruct rest as [|v rest']; [exists b; reflexivity|].
           apply (IH rest' (setString flag_rpcuser v f)). simpl in Hlen. lia.
      * destruct value as [v|].
        -- apply (IH1 (setString flag_rpcpass v f)).
        -- destruct rest as [|v rest']; [exists b; reflexivity|].
           apply (IH rest' (setString flag_rpcpass v f)). simpl in Hlen. lia.
      * destruct value as [v|].
        -- destruct (ParseBool v) as [b2|]; [|exists b; reflexivity].
           apply (Same (setBool flag_testnet b2 f)).
        -- apply (Same (setBool flag_testnet true f)).
    + destruct (String.eqb name "help" || String.eqb name "h");
        exists b; reflexivity.
Qed.

(** What can be seen of a result of [run]: the values returned or the
    way the process ended, and the output. *)
Lemma run_testnet (w : World) (osArgs : list string) (f : FlagSet)
    (out : list Event) (b : bool) :
  match run w osArgs (mkProcess (setBool flag_testnet b f) out),
        run w osArgs (mkProcess f out) with
  | Done r p, Done r' p' => r = r' /\ output p = output p'
  | Halt t p, Halt t' p' => t = t' /\ output p = output p'
  | _, _ => False
  end.
Proof.
  rewrite !run_unfold, !flagset_Parse_eq. cbn [flagset output].
  destruct (parseArgs_testnet b _ osArgs f (Nat.le_refl _)) as [b1 E1]. rewrite E1.
  destruct (parseArgs f osArgs) as [f1 [e|]]; cbn [fst snd].
  { destruct e; split; reflexivity. }
  cbn [flagset output].
  change (flagArgs (setBool flag_testnet b1 f1)) with (flagArgs f1).
  destruct (flagArgs f1) as [|args0 cmdTail]; [split; reflexivity|].
  destruct (cmdArgsOf args0) as [cmdArgs|]; [|split; reflexivity].
  cbv zeta. rewrite !flagset_Parse_eq. cbn [flagset output].
  match goal with
  | |- context [parseArgs f1 ?l] =>
      destruct (parseArgs_testnet b1 _ l f1 (Nat.le_refl _)) as [b2 E2]; rewrite E2;
      destruct (parseArgs f1 l) as [f2 [e|]]; cbn [fst snd]
  end.
  { destruct e; split; reflexivity. }
  match goal with
  | |- context [?a <? cmdArgs] => destruct (a <? cmdArgs); [split; reflexivity|]
  end.
  cbn [flagset output].
  change (flagArgs (setBool flag_testnet b2 f2)) with (flagArgs f2).
  change (connectFlag (setBool flag_testnet b2 f2)) with (connectFlag f2).
  destruct (flagArgs f2); [|split; reflexivity].
  destruct (normalizeAddress _ _) as [connect [err|]]; [split; reflexivity|].
  destruct (rpc_Dial w connect) as [err|client]; [split; reflexivity|].
  destruct (cmdOf args0); [|split; reflexivity].
  destruct (CallContext _ _ _ _ _); split; reflexivity.
Qed.

(** X23: the flag [-testnet] is parsed and then never read: putting it
    in front of any command line changes nothing of what the program
    prints, of the address it dials or of how it ends. *)
Theorem testnet_flag_ignored (w : World) (osArgs : list string) :
  testnetFlag (fst (parseArgs flagset0 ["-testnet"])) = true /\
  execute w ("-testnet" :: osArgs) = execute w osArgs.
Proof.
  split; [reflexivity|].
  rewrite !execute_of_run.
  pose proof (run_testnet w osArgs flagset0 [] true) as H.
  assert (E : run w ("-testnet" :: osArgs) process0 =
              run w osArgs (mkProcess (setBool flag_testnet true flagset0) [])).
  { rewrite !run_unfold, !flagset_Parse_eq. reflexivity. }
  rewrite E. change process0 with (mkProcess flagset0 []).
  destruct (run w osArgs (mkProcess (setBool flag_testnet true flagset0) []))
    as [[err su] p|t p],
    (run w osArgs (mkProcess flagset0 [])) as [[err' su'] p'|t' p'];
    try contradiction.
  - destruct H as [H1 H2]. injection H1 as -> ->. rewrite H2. reflexivity.
  - destruct H as [-> ->]. reflexivity.
Qed.

(** The same on one command line: with the flag set the server is
    dialled at the address the mainnet parameters give, as without it. *)
Example testnet_flag_example :
  testnetFlag (fst (parseArgs flagset0 ["-testnet"; "initiate"; "0x01"; "5"])) = true /\
  execute sampleWorld ["-testnet"; "initiate"; "0x01"; "5"] =
    ([RpcDial "http://localhost:8545";
      latestBlockCall (mkClient "http://localhost:8545");
      Stdout "0x10"; Stdout "0xabc";
      RpcClose (mkClient "http://localhost:8545")], Exit 0) /\
  execute sampleWorld ["initiate"; "0x01"; "5"] =
    execute sampleWorld ["-testnet"; "initiate"; "0x01"; "5"].
Proof. repeat split. Qed.

(** * Further properties of the program *)

(** ** Byte strings *)

Lemma str_app_assoc (a b c : string) : (a ++ b) ++ c = a ++ (b ++ c).
Proof. induction a as [|x a IH]; simpl; [reflexivity | now rewrite IH]. Qed.

Lemma str_app_length (a b : string) :
  String.length (a ++ b) = (String.length a + String.length b)%nat.
Proof. induction a as [|x a IH]; simpl; [reflexivity | now rewrite IH]. Qed.

Lemma str_app_inv (a a' b b' : string) :
  a ++ b = a' ++ b' -> String.length a = String.length a' ->
  a = a' /\ b = b'.
Proof.
  revert a'. induction a as [|x a IH]; intros [|x' a'] E L;
    simpl in *; try discriminate.
  - split; [reflexivity | exact E].
  - injection E as -> E. injection L as L.
    destruct (IH a' E L) as [-> ->]. split; reflexivity.
Qed.

Lemma strFrom_app (a b : string) : strFrom (String.length a) (a ++ b) = b.
Proof.
  unfold strFrom. induction a as [|x a IH]; simpl.
  - rewrite Nat.sub_0_r. apply substring_all.
  - exact IH.
Qed.

Lemma strFrom_cons (c : ascii) (s : string) : strFrom 1 (String c s) = s.
Proof. exact (strFrom_app (String c EmptyString) s). Qed.

Lemma indexByte_Some (c : ascii) (s : string) :
  forall e, indexByte c s = Some e ->
    exists a b, s = a ++ String c b /\ containsByte c a = false /\
                String.length a = e.
Proof.
  induction s as [|x s IH]; intros e H; simpl in H; [discriminate|].
  destruct (Ascii.eqb_spec x c) as [->|Hne].
  - injection H as <-. exists EmptyString, s. repeat split.
  - destruct (indexByte c s) as [e'|] eqn:E; [|discriminate].
    injection H as <-. destruct (IH e' eq_refl) as (a & b & -> & Ha & <-).
    exists (String x a), b. repeat split.
    rewrite containsByte_cons, Ha.
    destruct (Ascii.eqb_spec x c); [contradiction | reflexivity].
Qed.

Lemma indexByte_app_sep (c : ascii) (a b : string) :
  containsByte c a = false ->
  indexByte c (a ++ String c b) = Some (String.length a).
Proof.
  induction a as [|x a IH]; intros H; simpl.
  - now rewrite Ascii.eqb_refl.
  - rewrite containsByte_cons in H. apply orb_false_iff in H.
    destruct H as [H1 H2]. rewrite H1, (IH H2). reflexivity.
Qed.

Lemma lastIndexByte_Some (c : ascii) (s : string) :
  forall i, lastIndexByte c s = Some i ->
    exists a b, s = a ++ String c b /\ containsByte c b = false /\
                String.length a = i.
Proof.
  induction s as [|x s IH]; intros i H; simpl in H; [discriminate|].
  destruct (lastIndexByte c s) as [i'|] eqn:E.
  - injection H as <-. destruct (IH i' eq_refl) as (a & b & -> & Hb & <-).
    exists (String x a), b. repeat split. exact Hb.
  - destruct (Ascii.eqb_spec x c) as [->|]; [|discriminate].
    injection H as <-. exists EmptyString, s. repeat split.
    now apply lastIndexByte_None.
Qed.

Lemma containsByte_app_false (c : ascii) (a b : string) :
  containsByte c (a ++ b) = false ->
  containsByte c a = false /\ containsByte c b = false.
Proof. rewrite containsByte_app. apply orb_false_iff. Qed.

(** ** [net.SplitHostPort] and [net.JoinHostPort] together *)

(** What a successful split says about the address: it is host:port
    without any bracket, or [host]:port with the brackets only there. *)
Lemma SplitHostPort_inv (hostport host port : string) :
  GoNet.SplitHostPort hostport = inr (host, port) ->
  containsByte ":" port = false /\
  containsByte "[" port = false /\ containsByte "]" port = false /\
  containsByte "[" host = false /\ containsByte "]" host = false /\
  ((hostport = host ++ ":" ++ port /\ containsByte ":" host = false) \/
   hostport = "[" ++ host ++ "]:" ++ port).
Proof.
  unfold GoNet.SplitHostPort.
  destruct (lastIndexByte ":" hostport) as [i|] eqn:L; [|discriminate].
  destruct (lastIndexByte_Some _ _ _ L) as (a & b & -> & Hb & <-).
  unfold GoNet.splitHost.
  destruct (byteIs 0 (a ++ String ":" b) "[") eqn:B0.
  - destruct (indexByte "]" (a ++ String ":" b)) as [e|] eqn:E; [|discriminate].
    destruct (Nat.eqb (e + 1) (String.length (a ++ String ":" b)));
      [discriminate|].
    destruct (Nat.eqb_spec (e + 1) (String.length a)) as [He|];
      [|destruct (byteIs (e + 1) (a ++ String ":" b) ":"); discriminate].
    destruct (indexByte_Some _ _ _ E) as (a' & b' & E' & Ha' & <-).
    assert (S : a = a' ++ "]" /\ String ":" b = b').
    { apply str_app_inv.
      - rewrite str_app_assoc. exact E'.
      - rewrite str_app_length. simpl. lia. }
    destruct S as [-> <-].
    destruct a' as [|x h].
    { simpl in B0. unfold byteIs in B0. simpl in B0. discriminate. }
    assert (x = "["%char) as ->.
    { unfold byteIs in B0. simpl in B0. now apply Ascii.eqb_eq. }
    rewrite containsByte_cons in Ha'. apply orb_false_iff in Ha'.
    destruct Ha' as [_ Hh].
    set (hp := (String "[" h ++ "]") ++ String ":" b).
    assert (Hk : strFrom (String.length (String "[" h) + 1) hp = String ":" b).
    { replace (String.length (String "[" h) + 1)%nat
        with (String.length (String "[" h ++ "]"))
        by (rewrite str_app_length; reflexivity).
      apply strFrom_app. }
    assert (Hp : strFrom (String.length (String "[" h ++ "]") + 1) hp = b).
    { replace (String.length (String "[" h ++ "]") + 1)%nat
        with (String.length ((String "[" h ++ "]") ++ ":"))
        by (rewrite !str_app_length; reflexivity).
      replace hp with (((String "[" h ++ "]") ++ ":") ++ b)
        by (subst hp; rewrite !str_app_assoc; reflexivity).
      apply strFrom_app. }
    assert (Hj : strFrom 1 hp = h ++ "]" ++ String ":" b).
    { subst hp. rewrite str_app_assoc. apply strFrom_cons. }
    assert (Hs : substring 1 (String.length (String "[" h) - 1) hp = h).
    { subst hp. rewrite str_app_assoc.
      replace (String.length (String "[" h) - 1)%nat with (String.length h)
        by (simpl; lia).
      cbn [append substring]. apply substring_prefix. }
    rewrite Hk, Hp, Hj, Hs.
    destruct (containsByte "[" (h ++ "]" ++ String ":" b)) eqn:C1; [discriminate|].
    destruct (containsByte "]" (String ":" b)) eqn:C2; [discriminate|].
    intros H. injection H as <- <-.
    apply containsByte_app_false in C1. destruct C1 as [C1 C1'].
    simpl in C1'. rewrite !containsByte_cons in C1'. simpl in C1'.
    rewrite containsByte_cons in C2. simpl in C2.
    repeat split; try assumption.
    right. subst hp. simpl. rewrite !str_app_assoc. reflexivity.
  - cbv zeta. rewrite substring_prefix.
    destruct (containsByte ":" a) eqn:Ca; [discriminate|].
    rewrite strFrom_0.
    destruct (containsByte "[" (a ++ String ":" b)) eqn:C1; [discriminate|].
    destruct (containsByte "]" (a ++ String ":" b)) eqn:C2; [discriminate|].
    intros H. injection H as <- <-.
    apply containsByte_app_false in C1, C2.
    destruct C1 as [C1 C1'], C2 as [C2 C2'].
    rewrite containsByte_cons in C1', C2'. simpl in C1', C2'.
    replace (String.length a + 1)%nat with (String.length (a ++ ":"))
      by (rewrite str_app_length; reflexivity).
    replace (a ++ String ":" b) with ((a ++ ":") ++ b)
      by (rewrite str_app_assoc; reflexivity).
    rewrite strFrom_app. repeat split; try assumption.
    left. split; [rewrite str_app_assoc; reflexivity | assumption].
Qed.

Lemma bracketed_parts (h b : string) :
  let hp := (String "[" h ++ "]") ++ String ":" b in
  strFrom (String.length (String "[" h) + 1) hp = String ":" b /\
  strFrom (String.length (String "[" h ++ "]") + 1) hp = b /\
  strFrom 1 hp = h ++ "]" ++ String ":" b /\
  substring 1 (String.length (String "[" h) - 1) hp = h.
Proof.
  intros hp. repeat split.
  - replace (String.length (String "[" h) + 1)%nat
      with (String.length (String "[" h ++ "]"))
      by (rewrite str_app_length; reflexivity).
    apply strFrom_app.
  - replace (String.length (String "[" h ++ "]") + 1)%nat
      with (String.length ((String "[" h ++ "]") ++ ":"))
      by (rewrite !str_app_length; reflexivity).
    replace hp with (((String "[" h ++ "]") ++ ":") ++ b)
      by (subst hp; rewrite !str_app_assoc; reflexivity).
    apply strFrom_app.
  - subst hp. rewrite str_app_assoc. apply strFrom_cons.
  - subst hp. rewrite str_app_assoc.
    replace (String.length (String "[" h) - 1)%nat with (String.length h)
      by (simpl; lia).
    cbn [append substring]. apply substring_prefix.
Qed.

(** A host without brackets, put in brackets and joined to a port without
    colon or bracket, splits into that host and that port. *)
Lemma SplitHostPort_bracketed (host port : string) :
  containsByte "[" host = false -> containsByte "]" host = false ->
  containsByte ":" port = false ->
  containsByte "[" port = false -> containsByte "]" port = false ->
  GoNet.SplitHostPort ("[" ++ host ++ "]:" ++ port) = inr (host, port).
Proof.
  intros Ho Hc Pc Po Pcl.
  replace ("[" ++ host ++ "]:" ++ port)
    with ((String "[" host ++ "]") ++ String ":" port)
    by (simpl; rewrite str_app_assoc; reflexivity).
  destruct (bracketed_parts host port) as (Hk & Hp & Hj & Hs).
  set (hp := (String "[" host ++ "]") ++ String ":" port) in *.
  unfold GoNet.SplitHostPort.
  assert (L : lastIndexByte ":" hp = Some (String.length (String "[" host ++ "]")))
    by (apply lastIndexByte_app_sep; assumption).
  rewrite L. unfold GoNet.splitHost.
  assert (B0 : byteIs 0 hp "[" = true) by reflexivity.
  rewrite B0.
  assert (I : indexByte "]" hp = Some (String.length (String "[" host))).
  { subst hp. rewrite str_app_assoc. apply indexByte_app_sep.
    rewrite containsByte_cons, Hc. reflexivity. }
  rewrite I.
  assert (N1 : Nat.eqb (String.length (String "[" host) + 1) (String.length hp)
               = false).
  { apply Nat.eqb_neq. subst hp. rewrite !str_app_length. simpl. lia. }
  assert (N2 : Nat.eqb (String.length (String "[" host) + 1)
                 (String.length (String "[" host ++ "]")) = true).
  { apply Nat.eqb_eq. rewrite str_app_length. reflexivity. }
  rewrite N1, N2, Hk, Hp, Hj, Hs.
  rewrite !containsByte_app, !containsByte_cons, Ho, Po, Pcl. reflexivity.
Qed.

(** The error of a failed split names the address that was split. *)
Lemma SplitHostPort_error_addr (hostport : string) (e : GoNet.AddrError) :
  GoNet.SplitHostPort hostport = inl e -> GoNet.Addr e = hostport.
Proof.
  unfold GoNet.SplitHostPort, GoNet.addrErr.
  destruct (lastIndexByte ":" hostport) as [i|];
    [|intros H; injection H as <-; reflexivity].
  destruct (GoNet.splitHost hostport i) as [e'|[[host j] k]] eqn:S.
  - intros H. injection H as <-. revert S.
    unfold GoNet.splitHost, GoNet.addrErr.
    destruct (byteIs 0 hostport "[").
    + destruct (indexByte "]" hostport) as [end_|];
        [|intros H; injection H as <-; reflexivity].
      destruct (Nat.eqb (end_ + 1) (String.length hostport));
        [intros H; injection H as <-; reflexivity|].
      destruct (Nat.eqb (end_ + 1) i); [discriminate|].
      destruct (byteIs (end_ + 1) hostport ":");
        intros H; injection H as <-; reflexivity.
    + cbv zeta. destruct (containsByte ":" (substring 0 i hostport));
        [intros H; injection H as <-; reflexivity | discriminate].
  - destruct (containsByte "[" (strFrom j hostport));
      [intros H; injection H as <-; reflexivity|].
    destruct (containsByte "]" (strFrom k hostport));
      [intros H; injection H as <-; reflexivity | discriminate].
Qed.

(** Joining what a successful split gave and splitting again gives the
    same host and port. *)
Lemma SplitHostPort_Join (hostport host port : string) :
  GoNet.SplitHostPort hostport = inr (host, port) ->
  GoNet.SplitHostPort (GoNet.JoinHostPort host port) = inr (host, port).
Proof.
  intros H. destruct (SplitHostPort_inv _ _ _ H) as (Pc & Po & Pcl & Ho & Hcl & _).
  unfold GoNet.JoinHostPort. destruct (containsByte ":" host) eqn:Hc.
  - now apply SplitHostPort_bracketed.
  - now apply SplitHostPort_bare.
Qed.

(** ** More on [normalizeAddress] *)

(** X1: a host name without colon or bracket gets the default port (one
    without colon or bracket) joined to it and the prefix http:// put in
    front. *)
Theorem normalizeAddress_default_port (host defaultPort : string) :
  plain host -> plain defaultPort ->
  normalizeAddress host defaultPort =
    ("http://" ++ host ++ ":" ++ defaultPort, None).
Proof.
  intros (Hc & Ho & Hcl) (Pc & Po & Pcl).
  destruct (SplitHostPort_bare host defaultPort Hc Ho Hcl Pc Po Pcl)
    as (H1 & H2 & H3).
  unfold normalizeAddress. rewrite H1, H2, H3. reflexivity.
Qed.

Lemma normalizeAddress_default_port_witness :
  normalizeAddress "geth.example.org" "8545" =
    ("http://geth.example.org:8545", None).
Proof.
  apply (normalizeAddress_default_port "geth.example.org" "8545");
    repeat split.
Defined.

(** X2: an address host:port, host and port without colon or bracket,
    is returned as it is, whatever the default port: no prefix and no
    second port. *)
Theorem normalizeAddress_host_port (host port defaultPort : string) :
  plain host -> plain port ->
  normalizeAddress (host ++ ":" ++ port) defaultPort =
    (host ++ ":" ++ port, None).
Proof.
  intros (Hc & Ho & Hcl) (Pc & Po & Pcl).
  destruct (SplitHostPort_bare host port Hc Ho Hcl Pc Po Pcl)
    as (_ & H2 & H3).
  unfold normalizeAddress. rewrite H3, H2. reflexivity.
Qed.

Lemma normalizeAddress_host_port_witness :
  normalizeAddress "10.0.0.7:30303" "8545" = ("10.0.0.7:30303", None).
Proof.
  apply (normalizeAddress_host_port "10.0.0.7" "30303" "8545"); repeat split.
Defined.

(** X3: an address without bracket that holds a colon before its last
    colon (an IPv6 literal, or a URL with its scheme) does not parse as
    host:port; it is put in brackets as a whole, gets the default port
    and the prefix http://. *)
Theorem normalizeAddress_many_colons (a b defaultPort : string) :
  bracketFree a -> containsByte ":" a = true ->
  plain b -> plain defaultPort ->
  normalizeAddress (a ++ ":" ++ b) defaultPort =
    ("http://[" ++ a ++ ":" ++ b ++ "]:" ++ defaultPort, None).
Proof.
  intros (Ao & Acl) Ac (Bc & Bo & Bcl) (Pc & Po & Pcl).
  assert (S1 : GoNet.SplitHostPort (a ++ ":" ++ b) =
               inl (GoNet.mkAddrError GoNet.tooManyColons (a ++ ":" ++ b))).
  { unfold GoNet.SplitHostPort. simpl (":" ++ b).
    rewrite (lastIndexByte_app_sep ":" a b Bc). unfold GoNet.splitHost.
    rewrite (byteIs_0_app a (String ":" b) "[" Ao eq_refl).
    cbv zeta. rewrite substring_prefix, Ac. reflexivity. }
  assert (J : GoNet.JoinHostPort (a ++ ":" ++ b) defaultPort =
              "[" ++ (a ++ ":" ++ b) ++ "]:" ++ defaultPort).
  { unfold GoNet.JoinHostPort. rewrite containsByte_app, Ac. reflexivity. }
  assert (S2 : GoNet.SplitHostPort ("[" ++ (a ++ ":" ++ b) ++ "]:" ++ defaultPort) =
               inr (a ++ ":" ++ b, defaultPort)).
  { apply SplitHostPort_bracketed; try assumption;
      simpl (":" ++ b); rewrite containsByte_app, containsByte_cons.
    - rewrite Ao, Bo. reflexivity.
    - rewrite Acl, Bcl. reflexivity. }
  unfold normalizeAddress. rewrite S1, J, S2.
  simpl. rewrite !str_app_assoc. reflexivity.
Qed.

Lemma normalizeAddress_many_colons_witness :
  normalizeAddress "fe80::1" "8545" = ("http://[fe80::1]:8545", None) /\
  normalizeAddress "http://localhost:8545" "8545" =
    ("http://[http://localhost:8545]:8545", None).
Proof.
  split.
  - apply (normalizeAddress_many_colons "fe80:" "1" "8545"); repeat split.
  - apply (normalizeAddress_many_colons "http://localhost" "8545" "8545");
      repeat split.
Defined.

(** X4: an address without bracket is never turned down, whatever its
    colons, when the default port has neither colon nor bracket. *)
Theorem normalizeAddress_bracket_free (addr defaultPort : string) :
  bracketFree addr -> plain defaultPort ->
  snd (normalizeAddress addr defaultPort) = None.
Proof.
  intros (Ao & Acl) (Pc & Po & Pcl). unfold normalizeAddress.
  destruct (GoNet.SplitHostPort addr) as [origErr|[host port]]; [|reflexivity].
  assert (S2 : exists hp,
             GoNet.SplitHostPort (GoNet.JoinHostPort addr defaultPort) = inr hp).
  { unfold GoNet.JoinHostPort. destruct (containsByte ":" addr) eqn:Ac.
    - eexists. now apply SplitHostPort_bracketed.
    - eexists. now apply SplitHostPort_bare. }
  destruct S2 as [hp ->]. reflexivity.
Qed.

Lemma normalizeAddress_bracket_free_witness :
  snd (normalizeAddress "a:b:c:d" "8545") = None.
Proof.
  apply (normalizeAddress_bracket_free "a:b:c:d" "8545"); repeat split.
Defined.

(** X5: when an address is turned down, no address comes back with the
    error, and the error is the one of the first parse: it names the
    address as it was given, without the default port. *)
Theorem normalizeAddress_error (addr defaultPort hostport : string)
    (e : GoNet.AddrError) :
  normalizeAddress addr defaultPort = (hostport, Some e) ->
  hostport = EmptyString /\
  GoNet.SplitHostPort addr = inl e /\
  GoNet.Addr e = addr.
Proof.
  unfold normalizeAddress.
  destruct (GoNet.SplitHostPort addr) as [origErr|[host port]] eqn:S1;
    [|discriminate].
  destruct (GoNet.SplitHostPort (GoNet.JoinHostPort addr defaultPort));
    [|discriminate].
  intros H. injection H as <- <-.
  repeat split. now apply SplitHostPort_error_addr.
Qed.

Lemma normalizeAddress_error_witness :
  EmptyString = EmptyString /\
  GoNet.SplitHostPort "[::1" =
    inl (GoNet.mkAddrError GoNet.missingBracket "[::1") /\
  GoNet.Addr (GoNet.mkAddrError GoNet.missingBracket "[::1") = "[::1".
Proof.
  apply (normalizeAddress_error "[::1" "8545"). reflexivity.
Defined.

(** X6: on an address that parses as host:port the function is
    idempotent: applied to its own result, with any default port, it
    gives that result again. *)
Theorem normalizeAddress_idempotent (addr host port defaultPort defaultPort' : string) :
  GoNet.SplitHostPort addr = inr (host, port) ->
  normalizeAddress (fst (normalizeAddress addr defaultPort)) defaultPort' =
    normalizeAddress addr defaultPort.
Proof.
  intros H. pose proof (SplitHostPort_Join _ _ _ H) as J.
  unfold normalizeAddress at 2 3. rewrite H. cbn [fst].
  unfold normalizeAddress. rewrite J. reflexivity.
Qed.

Lemma normalizeAddress_idempotent_witness :
  normalizeAddress (fst (normalizeAddress "[localhost]:8545" "8545")) "80" =
    normalizeAddress "[localhost]:8545" "8545".
Proof.
  apply (normalizeAddress_idempotent "[localhost]:8545" "localhost" "8545").
  reflexivity.
Defined.

(** ** More on [checkCmdArgLength] *)

Lemma positionals_app (a b : list string) :
  positionals (a ++ b) =
    if Nat.eqb (positionals a) (List.length a)
    then (List.length a + positionals b)%nat
    else positionals a.
Proof.
  induction a as [|x a IH]; simpl; [reflexivity|].
  destruct (looksLikeFlag x); [reflexivity|].
  rewrite IH. simpl. destruct (Nat.eqb (positionals a) (List.length a));
    reflexivity.
Qed.

(** X7: for a non-negative [required] the function does not panic, and
    its result lies between 0 and [required] and does not exceed the
    number of arguments, so that it can be used to slice them. *)
Theorem checkCmdArgLength_bounds (args : list string) (required : Z) :
  0 <= required ->
  exists nArgs,
    checkCmdArgLength args required = Returns nArgs /\
    0 <= nArgs <= required /\ nArgs <= len args.
Proof.
  intros H. rewrite (checkCmdArgLength_positionals _ _ H).
  eexists. split; [reflexivity|].
  pose proof (positionals_le args). unfold len.
  destruct (Z.ltb_spec (Z.of_nat (List.length args)) required); lia.
Qed.

Lemma checkCmdArgLength_bounds_witness :
  exists nArgs,
    checkCmdArgLength ["0x01"; "-s"; "host"] 3 = Returns nArgs /\
    0 <= nArgs <= 3 /\ nArgs <= len ["0x01"; "-s"; "host"].
Proof.
  apply (checkCmdArgLength_bounds ["0x01"; "-s"; "host"] 3). lia.
Defined.

(** X8: for a negative [required] the length test passes and the slice
    expression panics. *)
Theorem checkCmdArgLength_negative (args : list string) (required : Z) :
  required < 0 ->
  checkCmdArgLength args required = Panics SliceOutOfRange.
Proof.
  intros H. unfold checkCmdArgLength, sliceTo, len.
  destruct (Z.ltb_spec (Z.of_nat (List.length args)) required); [lia|].
  destruct (Z.leb_spec 0 required); [lia | reflexivity].
Qed.

Lemma checkCmdArgLength_negative_witness :
  checkCmdArgLength ["0x01"] (-1) = Panics SliceOutOfRange.
Proof. apply (checkCmdArgLength_negative ["0x01"] (-1)). lia. Defined.

(** X9: only the first [required] arguments count: once there are that
    many, whatever follows them does not change the result. *)
Theorem checkCmdArgLength_trailing (args extra : list string) (required : Z) :
  0 <= required <= len args ->
  checkCmdArgLength (args ++ extra) required = checkCmdArgLength args required.
Proof.
  intros [H0 H1]. rewrite !(checkCmdArgLength_positionals _ _ H0).
  unfold len in *. rewrite length_app, positionals_app.
  pose proof (positionals_le args).
  destruct (Z.ltb_spec (Z.of_nat (List.length args + List.length extra)) required);
    [lia|].
  destruct (Z.ltb_spec (Z.of_nat (List.length args)) required); [lia|].
  f_equal.
  destruct (Nat.eqb_spec (positionals args) (List.length args)); lia.
Qed.

Lemma checkCmdArgLength_trailing_witness :
  checkCmdArgLength (["0x01"; "5"] ++ ["-s"; "host"]) 2 =
    checkCmdArgLength ["0x01"; "5"] 2.
Proof.
  apply (checkCmdArgLength_trailing ["0x01"; "5"] ["-s"; "host"] 2).
  unfold len. simpl. lia.
Defined.

(** ** Whole runs of the program *)

(** Every run is one of the eight of [Ending]. *)
Lemma execute_endings (w : World) (osArgs : list string) :
  Ending w (fst (execute w osArgs)) (snd (execute w osArgs)).
Proof.
  rewrite execute_of_run, run_unfold, flagset_Parse_eq.
  cbn [flagset output process0].
  destruct (parseArgs flagset0 osArgs) as [f1 [e|]].
  { destruct e; cbn [fst snd output]; constructor; discriminate. }
  cbn [flagset output].
  destruct (flagArgs f1) as [|args0 cmdTail]; [constructor|].
  destruct (cmdArgsOf args0) as [cmdArgs|]; [|constructor].
  cbv zeta. rewrite flagset_Parse_eq. cbn [flagset output].
  destruct (parseArgs f1 _) as [f2 [e|]].
  { destruct e; cbn [fst snd output]; constructor; discriminate. }
  match goal with
  | |- context [?a <? cmdArgs] => destruct (a <? cmdArgs); [constructor|]
  end.
  cbn [flagset output].
  destruct (flagArgs f2); [|constructor].
  destruct (normalizeAddress _ _) as [connect [err|]]; [constructor|].
  destruct (rpc_Dial w connect) as [err|client] eqn:D;
    [now constructor|].
  destruct (cmdOf args0); [|now constructor].
  destruct (CallContext _ _ _ _ _) eqn:C; now constructor.
Qed.

(** X10: the exit status of the program is 0, 1 or 2. *)
Theorem exit_status_range (w : World) (osArgs : list string) :
  exitStatus (snd (execute w osArgs)) = 0 \/
  exitStatus (snd (execute w osArgs)) = 1 \/
  exitStatus (snd (execute w osArgs)) = 2.
Proof.
  destruct (execute_endings w osArgs); simpl; auto.
Qed.

(** X11: the program ends with status 0 in two cases only: help was asked
    for and the usage text is all it printed, or the server was dialled,
    answered the call for the latest block, and the number and the hash
    of that block were printed. *)
Theorem exit_0_cases (w : World) (osArgs : list string) :
  snd (execute w osArgs) = Exit 0 ->
  fst (execute w osArgs) = [Usage] \/
  exists connect c b,
    rpc_Dial w connect = inr c /\
    CallContext w c (WithTimeout Background (10 * Second))
      "eth_getBlockByNumber" [ArgString "latest"; ArgBool false] = inr b /\
    fst (execute w osArgs) =
      [RpcDial connect; latestBlockCall c; Stdout (Number b);
       Stdout (Hash b); RpcClose c].
Proof.
  destruct (execute_endings w osArgs) as
      [ | | | |connect err D|connect c D|connect c b D C|connect c err D C];
    intros E0; try discriminate.
  - left. reflexivity.
  - right. now exists connect, c, b.
Qed.

Lemma exit_0_cases_witness :
  fst (execute sampleWorld ["-s"; "node:8545"; "initiate"; "0x01"; "5"]) = [Usage] \/
  exists connect c b,
    rpc_Dial sampleWorld connect = inr c /\
    CallContext sampleWorld c (WithTimeout Background (10 * Second))
      "eth_getBlockByNumber" [ArgString "latest"; ArgBool false] = inr b /\
    fst (execute sampleWorld ["-s"; "node:8545"; "initiate"; "0x01"; "5"]) =
      [RpcDial connect; latestBlockCall c; Stdout (Number b);
       Stdout (Hash b); RpcClose c].
Proof.
  apply (exit_0_cases sampleWorld ["-s"; "node:8545"; "initiate"; "0x01"; "5"]).
  reflexivity.
Defined.

(** X12: when the usage text is printed the server has not been dialled
    and no call was made: every mistake on the command line is found
    before the network is touched. *)
Theorem usage_before_network (w : World) (osArgs : list string) :
  In Usage (fst (execute w osArgs)) ->
  (forall connect, ~ In (RpcDial connect) (fst (execute w osArgs))) /\
  rpcContexts (fst (execute w osArgs)) = [].
Proof.
  destruct (execute_endings w osArgs) as
      [e0 He0| | |msg|connect err D|connect c D|connect c b D C|connect c err D C];
    simpl; intros HU;
    try (exfalso; intuition discriminate);
    (split; [intros connect0 HI; intuition discriminate | reflexivity]).
Qed.

Lemma usage_before_network_witness :
  (forall connect,
      ~ In (RpcDial connect) (fst (execute sampleWorld ["initiate"; "0x01"]))) /\
  rpcContexts (fst (execute sampleWorld ["initiate"; "0x01"])) = [].
Proof.
  apply (usage_before_network sampleWorld ["initiate"; "0x01"]). simpl. auto.
Defined.

(** X13: a client that was dialled is closed before the program ends,
    also when the command fails or panics. *)
Theorem client_always_closed (w : World) (osArgs : list string)
    (connect : string) (c : Client) :
  In (RpcDial connect) (fst (execute w osArgs)) ->
  rpc_Dial w connect = inr c ->
  In (RpcClose c) (fst (execute w osArgs)).
Proof.
  destruct (execute_endings w osArgs) as
      [ | | | |connect0 err D|connect0 c0 D|connect0 c0 b D C|connect0 c0 err D C];
    simpl; intros HI HD;
    try (exfalso; intuition discriminate);
    destruct HI as [E|HI]; try (exfalso; intuition discriminate);
    injection E as ->; rewrite HD in D; try discriminate;
    injection D as ->; auto 6.
Qed.

Lemma client_always_closed_witness :
  In (RpcClose (mkClient "http://localhost:8545"))
     (fst (execute sampleWorld ["redeem"; "0xc0"; "0xaa"; "0x5e"])).
Proof.
  apply (client_always_closed sampleWorld ["redeem"; "0xc0"; "0xaa"; "0x5e"]
           "http://localhost:8545").
  - simpl. auto.
  - reflexivity.
Defined.

(** X14: apart from the usage text, something is printed on standard
    output (the number and the hash of the block) only by a run that
    ends with status 0. *)
Theorem stdout_only_on_success (w : World) (osArgs : list string) (ev : Event) :
  In ev (fst (execute w osArgs)) ->
  onStdout ev = true -> ev <> Usage ->
  snd (execute w osArgs) = Exit 0.
Proof.
  destruct (execute_endings w osArgs) as
      [e0 He0| | |msg|connect err D|connect c D|connect c b D C|connect c err D C];
    simpl; intros HI HS HU; try reflexivity; exfalso;
    repeat (destruct HI as [<-|HI]; [try discriminate; now apply HU|]);
    exact HI.
Qed.

Lemma stdout_only_on_success_witness :
  snd (execute sampleWorld ["initiate"; "0x01"; "5"]) = Exit 0.
Proof.
  apply (stdout_only_on_success sampleWorld ["initiate"; "0x01"; "5"]
           (Stdout "0xabc")).
  - simpl. auto.
  - reflexivity.
  - discriminate.
Defined.

(** X15: every call made on the server goes to a client that was dialled
    in the same run and asks for the latest block; there is at most one
    such call. *)
Theorem rpc_call_shape (w : World) (osArgs : list string) :
  (List.length (rpcContexts (fst (execute w osArgs))) <= 1)%nat /\
  forall c ctx method args,
    In (RpcCall c ctx method args) (fst (execute w osArgs)) ->
    RpcCall c ctx method args = latestBlockCall c /\
    exists connect,
      rpc_Dial w connect = inr c /\
      In (RpcDial connect) (fst (execute w osArgs)).
Proof.
  destruct (execute_endings w osArgs) as
      [e0 He0| | |msg|connect0 err D|connect0 c0 D|connect0 c0 b D C|connect0 c0 err D C];
    simpl; (split; [lia|]); intros c ctx method args H;
    try (exfalso; intuition discriminate).
  - destruct H as [H|[H|H]]; try (exfalso; intuition discriminate).
    unfold latestBlockCall in H. injection H as <- <- <- <-.
    split; [reflexivity|]. exists connect0. auto.
  - destruct H as [H|[H|H]]; try (exfalso; intuition discriminate).
    unfold latestBlockCall in H. injection H as <- <- <- <-.
    split; [reflexivity|]. exists connect0. auto.
Qed.

Lemma rpc_call_shape_witness :
  latestBlockCall (mkClient "http://localhost:8545") =
    latestBlockCall (mkClient "http://localhost:8545") /\
  exists connect,
    rpc_Dial sampleWorld connect = inr (mkClient "http://localhost:8545") /\
    In (RpcDial connect) (fst (execute sampleWorld ["initiate"; "0x01"; "5"])).
Proof.
  apply (proj2 (rpc_call_shape sampleWorld ["initiate"; "0x01"; "5"])
           (mkClient "http://localhost:8545")
           (WithTimeout Background (10 * Second)) "eth_getBlockByNumber"
           [ArgString "latest"; ArgBool false]).
  simpl. auto.
Defined.

(** ** The flags and the command line *)

(** Parsing depends on the values the flags hold when it starts only
    through the server address: the same words are consumed and the same
    error is found, whatever the other flags hold. *)
Lemma parseArgs_connect :
  forall (n : nat) (args : list string) (f g : FlagSet),
    (List.length args <= n)%nat ->
    connectFlag f = connectFlag g ->
    snd (parseArgs f args) = snd (parseArgs g args) /\
    connectFlag (fst (parseArgs f args)) = connectFlag (fst (parseArgs g args)) /\
    flagArgs (fst (parseArgs f args)) = flagArgs (fst (parseArgs g args)).
Proof.
  induction n as [|n IH]; intros args f g Hlen Hfg.
  - destruct args; [|simpl in Hlen; lia]. simpl. auto.
  - destruct args as [|s rest]; [simpl; auto|].
    simpl in Hlen. cbn [parseArgs].
    destruct ((String.length s <? 2)%nat || negb (byteIs 0 s "-"));
      [simpl; auto|].
    destruct (byteIs 1 s "-" && (String.length s =? 2)%nat); [simpl; auto|].
    match goal with
    | |- context [if ?c then (setArgs f (s :: rest), Some (BadFlagSyntax s)) else _] =>
        destruct c; [simpl; auto|]
    end.
    destruct (splitValue _) as [name value].
    destruct (formal name) as [fl|].
    + destruct fl; cbn [IsBoolFlag].
      * destruct value as [v|].
        -- apply IH; [lia | reflexivity].
        -- destruct rest as [|v rest']; [simpl; auto|].
           apply IH; [simpl in Hlen; lia | reflexivity].
      * destruct value as [v|].
        -- apply IH; [lia | exact Hfg].
        -- destruct rest as [|v rest']; [simpl; auto|].
           apply IH; [simpl in Hlen; lia | exact Hfg].
      * destruct value as [v|].
        -- apply IH; [lia | exact Hfg].
        -- destruct rest as [|v rest']; [simpl; auto|].
           apply IH; [simpl in Hlen; lia | exact Hfg].
      * destruct value as [v|].
        -- destruct (ParseBool v) as [b2|]; [|simpl; auto].
           apply IH; [lia | exact Hfg].
        -- apply IH; [lia | exact Hfg].
    + destruct (String.eqb name "help" || String.eqb name "h"); simpl; auto.
Qed.

(** What a run shows, values, output and ending, depends on the flag set
    it starts from only through the server address. *)
Lemma run_connect (w : World) (osArgs : list string) (f g : FlagSet)
    (out : list Event) :
  connectFlag f = connectFlag g ->
  match run w osArgs (mkProcess f out), run w osArgs (mkProcess g out) with
  | Done r p, Done r' p' => r = r' /\ output p = output p'
  | Halt t p, Halt t' p' => t = t' /\ output p = output p'
  | _, _ => False
  end.
Proof.
  intros Hfg. rewrite !run_unfold, !flagset_Parse_eq. cbn [flagset output].
  destruct (parseArgs_connect _ osArgs f g (Nat.le_refl _) Hfg) as (E1 & E2 & E3).
  destruct (parseArgs f osArgs) as [f1 e1], (parseArgs g osArgs) as [g1 e1'].
  cbn [fst snd] in E1, E2, E3. subst e1'.
  destruct e1 as [e|]; [destruct e; split; reflexivity|].
  cbn [flagset output]. rewrite <- E3.
  destruct (flagArgs f1) as [|args0 cmdTail]; [split; reflexivity|].
  destruct (cmdArgsOf args0) as [cmdArgs|]; [|split; reflexivity].
  cbv zeta. rewrite !flagset_Parse_eq. cbn [flagset output].
  match goal with
  | |- context [parseArgs f1 ?l] =>
      destruct (parseArgs_connect _ l f1 g1 (Nat.le_refl _) E2) as (F1 & F2 & F3);
      destruct (parseArgs f1 l) as [f2 e2], (parseArgs g1 l) as [g2 e2']
  end.
  cbn [fst snd] in F1, F2, F3. subst e2'.
  destruct e2 as [e|]; [destruct e; split; reflexivity|].
  match goal with
  | |- context [?a <? cmdArgs] => destruct (a <? cmdArgs); [split; reflexivity|]
  end.
  cbn [flagset output]. rewrite <- F3, <- F2.
  destruct (flagArgs f2); [|split; reflexivity].
  destruct (normalizeAddress _ _) as [connect [err|]]; [split; reflexivity|].
  destruct (rpc_Dial w connect) as [err|client]; [split; reflexivity|].
  destruct (cmdOf args0); [|split; reflexivity].
  destruct (CallContext _ _ _ _ _); split; reflexivity.
Qed.

Lemma execute_connect (w : World) (osArgs osArgs' : list string) (f : FlagSet) :
  connectFlag f = connectFlag flagset0 ->
  run w osArgs' process0 = run w osArgs (mkProcess f []) ->
  execute w osArgs' = execute w osArgs.
Proof.
  intros Hf E. rewrite !execute_of_run, E.
  pose proof (run_connect w osArgs f flagset0 [] Hf) as H.
  change process0 with (mkProcess flagset0 []).
  destruct (run w osArgs (mkProcess f [])) as [[err su] p|t p],
    (run w osArgs (mkProcess flagset0 [])) as [[err' su'] p'|t' p'];
    try contradiction.
  - destruct H as [H1 H2]. injection H1 as -> ->. rewrite H2. reflexivity.
  - destruct H as [-> ->]. reflexivity.
Qed.

(** X16: the flags [-rpcuser] and [-rpcpass] are parsed and their values
    never used: a command line does the same with and without them. *)
Theorem credentials_ignored (w : World) (user pass : string)
    (osArgs : list string) :
  execute w ("-rpcuser" :: user :: osArgs) = execute w osArgs /\
  execute w ("-rpcpass" :: pass :: osArgs) = execute w osArgs /\
  execute w ("-rpcuser" :: user :: "-rpcpass" :: pass :: osArgs) =
    execute w osArgs.
Proof.
  repeat split.
  - apply (execute_connect w osArgs _ (setString flag_rpcuser user flagset0));
      [reflexivity|].
    rewrite !run_unfold, !flagset_Parse_eq. reflexivity.
  - apply (execute_connect w osArgs _ (setString flag_rpcpass pass flagset0));
      [reflexivity|].
    rewrite !run_unfold, !flagset_Parse_eq. reflexivity.
  - apply (execute_connect w osArgs _
             (setString flag_rpcpass pass (setString flag_rpcuser user flagset0)));
      [reflexivity|].
    rewrite !run_unfold, !flagset_Parse_eq. reflexivity.
Qed.

Lemma command_word_positional (name : string) (n : Z) :
  cmdArgsOf name = Some n -> looksLikeFlag name = false.
Proof.
  unfold cmdArgsOf.
  repeat match goal with
         | |- context [String.eqb ?a ?b] =>
             destruct (String.eqb_spec a b) as [->|]
         end; intros H; try discriminate; reflexivity.
Qed.

Lemma positionals_all (pos : list string) :
  Forall (fun a => ~ dashed a) pos -> positionals pos = List.length pos.
Proof.
  induction 1 as [|a pos Ha _ IH]; simpl; [reflexivity|].
  apply looksLikeFlag_not_dashed in Ha. rewrite Ha, IH. reflexivity.
Qed.

Lemma skipn_exact {A : Type} (a b : list A) :
  skipn (List.length a) (a ++ b) = b.
Proof. induction a as [|x a IH]; simpl; [reflexivity | exact IH]. Qed.

(** The number [nArgs] that [run] works out when the command is followed
    by all its positional arguments. *)
Lemma nArgs_full (pos tail : list string) (n : Z) :
  len pos = n -> Forall (fun a => ~ dashed a) pos ->
  (if len (pos ++ tail) <? n then 0
   else Z.min n (Z.of_nat (positionals (pos ++ tail)))) = n.
Proof.
  intros L F. unfold len in *. rewrite length_app, positionals_app.
  rewrite (positionals_all _ F), Nat.eqb_refl.
  destruct (Z.ltb_spec (Z.of_nat (List.length pos + List.length tail)) n); lia.
Qed.

(** X17: a command followed by all its positional arguments and then by
    one more word that is not a flag is turned down with the error
    unexpected argument, which names that word, and the usage text. *)
Theorem too_many_arguments (w : World) (name : string) (n : Z)
    (pos : list string) (extra : string) (rest : list string) :
  cmdArgsOf name = Some n ->
  len pos = n -> Forall (fun a => ~ dashed a) pos -> ~ dashed extra ->
  execute w (name :: pos ++ extra :: rest) =
    ([Stderr ("unexpected argument: " ++ extra); Usage], Exit 1).
Proof.
  intros C L F X. apply looksLikeFlag_not_dashed in X.
  rewrite execute_of_run, run_unfold, flagset_Parse_eq.
  cbn [flagset process0].
  rewrite (parseArgs_positional _ _ _ (command_word_positional _ _ C)).
  cbn [flagset output setArgs flagArgs]. rewrite C. cbv zeta.
  rewrite (nArgs_full pos (extra :: rest) n L F).
  replace (Z.to_nat n) with (List.length pos) by (unfold len in L; lia).
  rewrite skipn_exact, flagset_Parse_eq. cbn [flagset output].
  rewrite (parseArgs_positional _ _ _ X). rewrite Z.ltb_irrefl.
  reflexivity.
Qed.

Lemma too_many_arguments_witness :
  execute sampleWorld ("initiate" :: ["0x01"; "5"] ++ "7" :: ["-s"; "host"]) =
    ([Stderr ("unexpected argument: " ++ "7"); Usage], Exit 1).
Proof.
  apply (too_many_arguments sampleWorld "initiate" 2 ["0x01"; "5"] "7"
           ["-s"; "host"]).
  - reflexivity.
  - reflexivity.
  - repeat constructor; unfold dashed; simpl; intros [H _]; discriminate.
  - unfold dashed. simpl. intros [H _]. discriminate.
Defined.

(** The values of the flags after a parse do not depend on the arguments
    an earlier parse left over. *)
Lemma parseArgs_setArgs :
  forall (n : nat) (args left : list string) (f : FlagSet),
    (List.length args <= n)%nat ->
    parseArgs (setArgs f left) args = parseArgs f args.
Proof.
  induction n as [|n IH]; intros args left f Hlen.
  - destruct args; [reflexivity | simpl in Hlen; lia].
  - destruct args as [|s rest]; [reflexivity|].
    simpl in Hlen. cbn [parseArgs].
    destruct ((String.length s <? 2)%nat || negb (byteIs 0 s "-"));
      [reflexivity|].
    destruct (byteIs 1 s "-" && (String.length s =? 2)%nat); [reflexivity|].
    match goal with
    | |- context [if ?c then (setArgs f (s :: rest), Some (BadFlagSyntax s)) else _] =>
        destruct c; [reflexivity|]
    end.
    destruct (splitValue _) as [name value].
    destruct (formal name) as [fl|].
    + destruct fl; cbn [IsBoolFlag].
      * destruct value as [v|].
        -- apply (IH rest left (setString flag_s v f)). lia.
        -- destruct rest as [|v rest']; [reflexivity|].
           apply (IH rest' left (setString flag_s v f)). simpl in Hlen. lia.
      * destruct value as [v|].
        -- apply (IH rest left (setString flag_rpcuser v f)). lia.
        -- destruct rest as [|v rest']; [reflexivity|].
           apply (IH rest' left (setString flag_rpcuser v f)). simpl in Hlen. lia.
      * destruct value as [v|].
        -- apply (IH rest left (setString flag_rpcpass v f)). lia.
        -- destruct rest as [|v rest']; [reflexivity|].
           apply (IH rest' left (setString flag_rpcpass v f)). simpl in Hlen. lia.
      * destruct value as [v|].
        -- destruct (ParseBool v) as [b2|]; [|reflexivity].
           apply (IH rest left (setBool flag_testnet b2 f)). lia.
        -- apply (IH rest left (setBool flag_testnet true f)). lia.
    + destruct (String.eqb name "help" || String.eqb name "h"); reflexivity.
Qed.

(** Flags that parse to the end, followed by a word that is not a flag:
    the parse of the whole stops in front of that word with the flags
    set as by the flags alone. *)
Lemma parseArgs_app (word : string) (tail : list string) :
  looksLikeFlag word = false ->
  forall (n : nat) (flags : list string) (f f' : FlagSet),
    (List.length flags <= n)%nat ->
    parseArgs f flags = (f', None) -> flagArgs f' = [] ->
    parseArgs f (flags ++ word :: tail) = (setArgs f' (word :: tail), None).
Proof.
  intros W. induction n as [|n IH]; intros flags f f' Hlen P A.
  - destruct flags; [|simpl in Hlen; lia]. simpl in P. injection P as <-.
    simpl app. rewrite (parseArgs_positional _ _ _ W). reflexivity.
  - destruct flags as [|s rest].
    { simpl in P. injection P as <-. simpl app.
      rewrite (parseArgs_positional _ _ _ W). reflexivity. }
    simpl in Hlen. revert P. cbn [parseArgs app].
    destruct ((String.length s <? 2)%nat || negb (byteIs 0 s "-")).
    { intros P. injection P as <-. discriminate. }
    destruct (byteIs 1 s "-" && (String.length s =? 2)%nat).
    { intros P. injection P as <-. cbn [flagArgs setArgs] in A. subst rest.
      reflexivity. }
    match goal with
    | |- context [if ?c then (setArgs f (s :: rest), Some (BadFlagSyntax s)) else _] =>
        destruct c; [discriminate|]
    end.
    destruct (splitValue _) as [name value].
    destruct (formal name) as [fl|].
    + destruct fl; cbn [IsBoolFlag].
      * destruct value as [v|].
        -- intros P. apply (IH rest _ f'); [lia | exact P | exact A].
        -- destruct rest as [|v rest']; [discriminate|].
           intros P. cbn [app].
           apply (IH rest' _ f'); [simpl in Hlen; lia | exact P | exact A].
      * destruct value as [v|].
        -- intros P. apply (IH rest _ f'); [lia | exact P | exact A].
        -- destruct rest as [|v rest']; [discriminate|].
           intros P. cbn [app].
           apply (IH rest' _ f'); [simpl in Hlen; lia | exact P | exact A].
      * destruct value as [v|].
        -- intros P. apply (IH rest _ f'); [lia | exact P | exact A].
        -- destruct rest as [|v rest']; [discriminate|].
           intros P. cbn [app].
           apply (IH rest' _ f'); [simpl in Hlen; lia | exact P | exact A].
      * destruct value as [v|].
        -- destruct (ParseBool v) as [b2|]; [|discriminate].
           intros P. apply (IH rest _ f'); [lia | exact P | exact A].
        -- intros P. apply (IH rest _ f'); [lia | exact P | exact A].
    + destruct (String.eqb name "help" || String.eqb name "h"); discriminate.
Qed.

(** X18: flags may stand in front of the command word or behind its
    positional arguments: when they parse to the end, the program does the
    same either way. *)
Theorem flags_before_or_after (w : World) (flags pos : list string)
    (name : string) (n : Z) (f : FlagSet) :
  parseArgs flagset0 flags = (f, None) -> flagArgs f = [] ->
  cmdArgsOf name = Some n ->
  len pos = n -> Forall (fun a => ~ dashed a) pos ->
  execute w (flags ++ name :: pos) = execute w (name :: pos ++ flags).
Proof.
  intros P A C L F.
  pose proof (command_word_positional _ _ C) as W.
  rewrite !execute_of_run, !run_unfold, !flagset_Parse_eq.
  cbn [flagset process0].
  rewrite (parseArgs_app name pos W _ flags flagset0 f (Nat.le_refl _) P A).
  rewrite (parseArgs_positional _ _ _ W).
  cbn [flagset output setArgs flagArgs]. rewrite C. cbv zeta.
  rewrite (nArgs_full pos flags n L F).
  pose proof (nArgs_full pos [] n L F) as N0. rewrite app_nil_r in N0.
  rewrite N0.
  replace (Z.to_nat n) with (List.length pos) by (unfold len in L; lia).
  rewrite skipn_exact, skipn_all, !flagset_Parse_eq. cbn [flagset output].
  rewrite (parseArgs_setArgs _ flags _ flagset0 (Nat.le_refl _)), P.
  cbn [parseArgs].
  replace (setArgs (setArgs f (name :: pos)) [])
    with f by (destruct f; cbn in A; subst; reflexivity).
  reflexivity.
Qed.

Lemma flags_before_or_after_witness :
  execute sampleWorld (["-s"; "node:8545"; "-testnet"] ++ "initiate" :: ["0x01"; "5"]) =
    execute sampleWorld ("initiate" :: ["0x01"; "5"] ++ ["-s"; "node:8545"; "-testnet"]).
Proof.
  apply (flags_before_or_after sampleWorld ["-s"; "node:8545"; "-testnet"]
           ["0x01"; "5"] "initiate" 2
           (mkFlagSet "node:8545" EmptyString EmptyString true [])).
  - reflexivity.
  - reflexivity.
  - reflexivity.
  - reflexivity.
  - repeat constructor; unfold dashed; simpl; intros [H _]; discriminate.
Defined.

Lemma unimplemented_commands (name : string) (n : Z) :
  cmdArgsOf name = Some n -> cmdOf name = None ->
  In name ["participate"; "redeem"; "extractsecret"; "auditcontract"].
Proof.
  unfold cmdArgsOf, cmdOf.
  repeat match goal with
         | |- context [String.eqb ?a ?b] =>
             destruct (String.eqb_spec a b) as [->|]
         end; intros H1 H2; try discriminate; simpl; auto.
Qed.

Ltac fin_usage :=
  repeat (apply Forall_cons || apply Forall_nil);
  simpl; intros; (discriminate || reflexivity).

(** X19: participate, redeem, extractsecret and auditcontract never make
    a call on the server, and the usage text is all they can print on
    standard output, whatever their arguments and the flags. *)
Theorem unimplemented_commands_silent (w : World) (osArgs : list string)
    (f1 : FlagSet) (name : string) (cmdTail : list string) :
  parseArgs flagset0 osArgs = (f1, None) ->
  flagArgs f1 = name :: cmdTail ->
  In name ["participate"; "redeem"; "extractsecret"; "auditcontract"] ->
  rpcContexts (fst (execute w osArgs)) = [] /\
  forall ev, In ev (fst (execute w osArgs)) -> onStdout ev = true -> ev = Usage.
Proof.
  intros P1 A1 Hname.
  assert (Hcmd : cmdOf name = None).
  { simpl in Hname. destruct Hname as [<-|[<-|[<-|[<-|[]]]]]; reflexivity. }
  assert (Fin : forall out : list Event,
             rpcContexts out = [] ->
             Forall (fun ev => onStdout ev = true -> ev = Usage) out ->
             rpcContexts out = [] /\
             forall ev, In ev out -> onStdout ev = true -> ev = Usage).
  { intros out R F. split; [exact R|]. exact (proj1 (Forall_forall _ _) F). }
  rewrite execute_of_run, run_unfold, flagset_Parse_eq.
  cbn [flagset process0]. rewrite P1. cbn [flagset output]. rewrite A1.
  destruct (cmdArgsOf name) as [cmdArgs|];
    [|apply Fin; [reflexivity | fin_usage]].
  cbv zeta. rewrite flagset_Parse_eq. cbn [flagset output].
  destruct (parseArgs f1 _) as [f2 [e|]].
  { destruct e; (apply Fin; [reflexivity | fin_usage]). }
  match goal with
  | |- context [?a <? cmdArgs] =>
      destruct (a <? cmdArgs);
        [apply Fin; [reflexivity | fin_usage]|]
  end.
  cbn [flagset output].
  destruct (flagArgs f2);
    [|apply Fin; [reflexivity | fin_usage]].
  destruct (normalizeAddress _ _) as [connect [err|]];
    [apply Fin; [reflexivity | fin_usage]|].
  rewrite Hcmd.
  destruct (rpc_Dial w connect) as [err|client];
    (apply Fin; [reflexivity | fin_usage]).
Qed.

Lemma unimplemented_commands_silent_witness :
  rpcContexts (fst (execute sampleWorld ["-testnet"; "auditcontract"; "0xc0"; "0xaa"])) = [] /\
  forall ev,
    In ev (fst (execute sampleWorld ["-testnet"; "auditcontract"; "0xc0"; "0xaa"])) ->
    onStdout ev = true -> ev = Usage.
Proof.
  apply (unimplemented_commands_silent sampleWorld
           ["-testnet"; "auditcontract"; "0xc0"; "0xaa"]
           (mkFlagSet "localhost" EmptyString EmptyString true
              ["auditcontract"; "0xc0"; "0xaa"])
           "auditcontract" ["0xc0"; "0xaa"]).
  - reflexivity.
  - reflexivity.
  - simpl. auto.
Defined.

(** X20: the program panics in one way only, the call through a nil
    command, and only when the command word is participate, redeem,
    extractsecret or auditcontract; no slice of the arguments goes out of
    range, and [initiate] never panics. *)
Theorem panic_only_nil_command (w : World) (osArgs : list string)
    (v : PanicValue) :
  snd (execute w osArgs) = Panicked v ->
  v = NilDereference /\
  exists f1 name cmdTail,
    parseArgs flagset0 osArgs = (f1, None) /\
    flagArgs f1 = name :: cmdTail /\
    In name ["participate"; "redeem"; "extractsecret"; "auditcontract"].
Proof.
  rewrite execute_of_run, run_unfold, flagset_Parse_eq.
  cbn [flagset process0].
  destruct (parseArgs flagset0 osArgs) as [f1 [e|]] eqn:P1.
  { destruct e; discriminate. }
  cbn [flagset output].
  destruct (flagArgs f1) as [|args0 cmdTail] eqn:A1; [discriminate|].
  destruct (cmdArgsOf args0) as [cmdArgs|] eqn:C; [|discriminate].
  cbv zeta. rewrite flagset_Parse_eq. cbn [flagset output].
  destruct (parseArgs f1 _) as [f2 [e|]].
  { destruct e; discriminate. }
  match goal with
  | |- context [?a <? cmdArgs] => destruct (a <? cmdArgs); [discriminate|]
  end.
  cbn [flagset output].
  destruct (flagArgs f2); [|discriminate].
  destruct (normalizeAddress _ _) as [connect [err|]]; [discriminate|].
  destruct (rpc_Dial w connect) as [err|client]; [discriminate|].
  destruct (cmdOf args0) eqn:K.
  - destruct (CallContext _ _ _ _ _); discriminate.
  - cbn [snd]. intros H. injection H as <-. split; [reflexivity|].
    exists f1, args0, cmdTail.
    split; [reflexivity|]. split; [exact A1|].
    exact (unimplemented_commands _ _ C K).
Qed.

Lemma panic_only_nil_command_witness :
  NilDereference = NilDereference /\
  exists f1 name cmdTail,
    parseArgs flagset0 ["extractsecret"; "0xaa"; "0xff"] = (f1, None) /\
    flagArgs f1 = name :: cmdTail /\
    In name ["participate"; "redeem"; "extractsecret"; "auditcontract"].
Proof.
  apply (panic_only_nil_command sampleWorld ["extractsecret"; "0xaa"; "0xff"]).
  reflexivity.
Defined.

(** X21: a server address given with [-s] that cannot be normalised is
    reported before anything is dialled: the error names the address as
    it was given and the reason of the first parse, and the usage text
    follows. *)
Theorem bad_server_address (w : World) (addr hostport : string)
    (e : GoNet.AddrError) (participant amount : string) :
  normalizeAddress addr (walletPort "mainnet") = (hostport, Some e) ->
  ~ dashed participant -> ~ dashed amount ->
  GoNet.Addr e = addr /\
  execute w ["-s"; addr; "initiate"; participant; amount] =
    ([Stderr ("geth server address: " ++ GoNet.AddrError_Error e); Usage],
     Exit 1).
Proof.
  intros N Hp Ha. apply looksLikeFlag_not_dashed in Hp, Ha. split.
  - revert N. unfold normalizeAddress.
    destruct (GoNet.SplitHostPort addr) as [origErr|[h p]] eqn:S1;
      [|discriminate].
    destruct (GoNet.SplitHostPort (GoNet.JoinHostPort addr (walletPort "mainnet")));
      [|discriminate].
    intros H. inversion H; subst. now apply SplitHostPort_error_addr.
  - rewrite execute_of_run, run_unfold, flagset_Parse_eq.
    cbn [flagset process0].
    change (parseArgs flagset0 ["-s"; addr; "initiate"; participant; amount])
      with (setArgs (setString flag_s addr flagset0)
              ["initiate"; participant; amount], @None FlagError).
    cbn [flagset output setArgs flagArgs].
    change (cmdArgsOf "initiate") with (Some 2). cbv beta iota zeta.
    change (len [participant; amount] <? 2) with false. cbv beta iota.
    cbn [positionals]. rewrite Hp, Ha.
    change (Z.to_nat (Z.min 2 (Z.of_nat 2))) with 2%nat. cbn [skipn].
    rewrite flagset_Parse_eq. cbn [flagset parseArgs output setArgs flagArgs].
    change (Z.min 2 (Z.of_nat 2) <? 2) with false. cbv beta iota.
    cbn [connectFlag setString setArgs flagset0 output process0 app].
    rewrite N. reflexivity.
Qed.

Lemma bad_server_address_witness :
  GoNet.Addr (GoNet.mkAddrError GoNet.missingPort "node]") = "node]" /\
  execute sampleWorld ["-s"; "node]"; "initiate"; "0x01"; "5"] =
    ([Stderr ("geth server address: " ++
              GoNet.AddrError_Error (GoNet.mkAddrError GoNet.missingPort "node]"));
      Usage], Exit 1).
Proof.
  apply (bad_server_address sampleWorld "node]" EmptyString
           (GoNet.mkAddrError GoNet.missingPort "node]") "0x01" "5").
  - reflexivity.
  - unfold dashed. simpl. intros [H _]. discriminate.
  - unfold dashed. simpl. intros [H _]. discriminate.
Defined.



(** ** The scheme prefix of [normalizeAddress] *)

(** A host without colon joined to a port begins with http:// only when
    the host is the word http and the port begins with two slashes. *)
Lemma http_prefix_host (host port : string) :
  containsByte ":" host = false ->
  HasPrefix (host ++ ":" ++ port) "http://" = true ->
  host = "http" /\ HasPrefix port "//" = true.
Proof.
  unfold HasPrefix. intros Hc H.
  destruct host as [|c1 [|c2 [|c3 [|c4 [|c5 h]]]]]; cbn [append prefix] in H;
    repeat match type of H with
           | context [ascii_dec ?a ?b] =>
               destruct (ascii_dec a b) as [E|];
               [first [discriminate E | subst b | clear E] | discriminate H]
           end;
    try discriminate.
  split; [reflexivity|]. destruct port as [|p1 [|p2 port]];
    cbn [prefix] in H |- *; try discriminate; try exact H.
Qed.

(** C9, as the specification words it, fails on an address that parses
    as host:port and begins with http:// itself: it comes back as it is,
    prefix included. *)
Lemma http_address_keeps_prefix :
  GoNet.SplitHostPort "http://80" = inr ("http", "//80") /\
  normalizeAddress "http://80" "8545" = ("http://80", None) /\
  HasPrefix (fst (normalizeAddress "http://80" "8545")) "http://" = true.
Proof. repeat split. Qed.

(** C9, amended: an address that parses as host:port comes back as host
    and port joined again, in brackets when the host holds a colon, and
    nothing is put in front of it: the result begins with http:// only
    when the host is the word http and the port begins with two slashes.
    An address that does not parse gets the default port joined to it
    and, when that parses, comes back behind the prefix http://; for a
    bare host, one without colon or bracket, that is
    http://host:defaultPort.  When neither parses, the empty address and
    the error of the first parse are returned. *)
Theorem normalizeAddress_cases (addr defaultPort : string) :
  (forall host port,
     GoNet.SplitHostPort addr = inr (host, port) ->
     normalizeAddress addr defaultPort =
       (if containsByte ":" host then "[" ++ host ++ "]:" ++ port
        else host ++ ":" ++ port, None) /\
     (HasPrefix (fst (normalizeAddress addr defaultPort)) "http://" = true ->
      host = "http" /\ HasPrefix port "//" = true)) /\
  (forall origErr hp,
     GoNet.SplitHostPort addr = inl origErr ->
     GoNet.SplitHostPort (GoNet.JoinHostPort addr defaultPort) = inr hp ->
     normalizeAddress addr defaultPort =
       ("http://" ++ (if containsByte ":" addr
                      then "[" ++ addr ++ "]:" ++ defaultPort
                      else addr ++ ":" ++ defaultPort), None)) /\
  (plain addr -> plain defaultPort ->
   normalizeAddress addr defaultPort =
     ("http://" ++ addr ++ ":" ++ defaultPort, None)) /\
  (forall origErr e,
     GoNet.SplitHostPort addr = inl origErr ->
     GoNet.SplitHostPort (GoNet.JoinHostPort addr defaultPort) = inl e ->
     normalizeAddress addr defaultPort = (EmptyString, Some origErr) /\
     GoNet.Addr origErr = addr).
Proof.
  split; [|split; [|split]].
  - intros host port S.
    assert (R : normalizeAddress addr defaultPort =
                (if containsByte ":" host then "[" ++ host ++ "]:" ++ port
                 else host ++ ":" ++ port, None))
      by (unfold normalizeAddress; rewrite S; reflexivity).
    split; [exact R|]. rewrite R. cbn [fst].
    destruct (containsByte ":" host) eqn:Hc.
    + unfold HasPrefix. simpl. discriminate.
    + now apply http_prefix_host.
  - intros origErr hp S1 S2. unfold normalizeAddress. rewrite S1, S2.
    reflexivity.
  - intros (Hc & Ho & Hcl) (Pc & Po & Pcl).
    destruct (SplitHostPort_bare addr defaultPort Hc Ho Hcl Pc Po Pcl)
      as (H1 & H2 & H3).
    unfold normalizeAddress. rewrite H1, H2, H3. reflexivity.
  - intros origErr e S1 S2. split.
    + unfold normalizeAddress. rewrite S1, S2. reflexivity.
    + now apply SplitHostPort_error_addr.
Qed.

Lemma normalizeAddress_cases_witness :
  (normalizeAddress "[::1]:30303" "8545" =
     (if containsByte ":" "::1" then "[" ++ "::1" ++ "]:" ++ "30303"
      else "::1" ++ ":" ++ "30303", None) /\
   (HasPrefix (fst (normalizeAddress "[::1]:30303" "8545")) "http://" = true ->
    "::1" = "http" /\ HasPrefix "30303" "//" = true)) /\
  normalizeAddress "localhost" "8545" = ("http://" ++ "localhost" ++ ":" ++ "8545", None) /\
  (normalizeAddress "[localhost" "8545" =
     (EmptyString, Some (GoNet.mkAddrError GoNet.missingPort "[localhost")) /\
   GoNet.Addr (GoNet.mkAddrError GoNet.missingPort "[localhost") = "[localhost").
Proof.
  split; [|split].
  - apply (proj1 (normalizeAddress_cases "[::1]:30303" "8545") "::1" "30303").
    reflexivity.
  - apply (proj1 (proj2 (proj2 (normalizeAddress_cases "localhost" "8545"))));
      repeat split.
  - apply (proj2 (proj2 (proj2 (normalizeAddress_cases "[localhost" "8545")))
             (GoNet.mkAddrError GoNet.missingPort "[localhost")
             (GoNet.mkAddrError GoNet.missingBracket "[localhost:8545"));
      reflexivity.
Defined.

(** ** The commands, their argument counts, and what becomes of them *)




(** ** The network parameters *)


